(** * Waveform analysis: file scan, classification and rendering pipeline

    A shallow embedding of [waveform_analysis.py].  The script walks a
    dataset directory, sorts the audio files it meets into two lists
    ([real_files], [fake_files]) by keywords in their names, and renders two
    PDF figures through [librosa] and [matplotlib].

    Modelling choices, all visible in the definitions below:
    - path strings are ASCII strings; [lower] is [str.lower] on that range;
    - a directory is an ordered list of entries, in the order [os.scandir]
      reports them; [rglob] follows the generator order of [pathlib]
      (the matches of a directory first, then its sub-directories in order);
    - console output, directory creation, plotting calls and saved files are
      recorded in a trace of events; Python exceptions are a [Raise] result;
    - the decoding and plotting libraries are not part of the script: what
      they return is given by a [World] of oracles, and a plotting call
      fails exactly when its two arrays differ in length. *)

From Stdlib Require Import List String Ascii Bool Arith ZArith Lia Permutation.
From Stdlib Require SpecFloat.
Import ListNotations.
Local Open Scope string_scope.
Local Open Scope list_scope.

(** ** Strings *)

Definition lower_ascii (c : ascii) : ascii :=
  let n := nat_of_ascii c in
  if ((65 <=? n)%nat && (n <=? 90)%nat)%bool then ascii_of_nat (n + 32) else c.

(** [s.lower()] *)
Fixpoint lower (s : string) : string :=
  match s with
  | EmptyString => EmptyString
  | String c s' => String (lower_ascii c) (lower s')
  end.

(** [kw in s] for Python strings: [kw] occurs as a contiguous substring. *)
Fixpoint contains (kw s : string) : bool :=
  prefix kw s ||
  match s with
  | EmptyString => false
  | String _ s' => contains kw s'
  end.

(** Membership of a character in a string. *)
Fixpoint occurs (c : ascii) (s : string) : bool :=
  match s with
  | EmptyString => false
  | String d s' => Ascii.eqb c d || occurs c s'
  end.

(** [fnmatch] restricted to what the script's patterns use: literal
    characters and [*] (any run of characters, possibly empty). *)
Fixpoint fnmatch (pat : string) : string -> bool :=
  match pat with
  | EmptyString => fun s => match s with EmptyString => true | _ => false end
  | String c pat' =>
      if Ascii.eqb c "*" then
        fix star (s : string) : bool :=
          fnmatch pat' s ||
          match s with
          | EmptyString => false
          | String _ s' => star s'
          end
      else
        fun s =>
          match s with
          | EmptyString => false
          | String d s' => Ascii.eqb c d && fnmatch pat' s'
          end
  end.

(** ** Paths and the directory tree *)

(** The two [pathlib] flavours: they differ in the separator and in whether
    glob patterns are matched case-insensitively. *)
Inductive flavour := Posix | Windows.

Definition sep (fl : flavour) : ascii :=
  match fl with Posix => "/"%char | Windows => "\"%char end.

(** A path below the dataset root, as its components from the root down. *)
Definition Path := list string.

(** [file_path.name] *)
Definition name (p : Path) : string := last p "".

(** [str(file_path)] for [file_path = Path(data_path) / c1 / ... / cn];
    [root] is [str(Path(data_path))]. *)
Definition path_str (fl : flavour) (root : string) (p : Path) : string :=
  fold_left (fun acc c => (acc ++ String (sep fl) c)%string) p root.

#[local] Set Warnings "-register-all".

Inductive node :=
| File (nm : string)
| Dir (nm : string) (entries : list node).

Definition entry_name (n : node) : string :=
  match n with File nm => nm | Dir nm _ => nm end.

(** Pattern match of one entry name, as the flavour compiles the pattern. *)
Definition matches (fl : flavour) (pat nm : string) : bool :=
  match fl with
  | Posix => fnmatch pat nm
  | Windows => fnmatch (lower pat) (lower nm)
  end.

(** The children of directory [here] selected by [sel], in directory order.
    Directories are selected like files: [rglob] yields every entry whose
    name matches. *)
Definition select (sel : string -> bool) (here : Path) (es : list node) : list Path :=
  map (fun e => here ++ [entry_name e]) (filter (fun e => sel (entry_name e)) es).

(** What the recursive wildcard yields below one entry of [here]. *)
Fixpoint descend (sel : string -> bool) (here : Path) (n : node) : list Path :=
  match n with
  | File _ => []
  | Dir nm es =>
      let d := here ++ [nm] in
      select sel d es ++ flat_map (descend sel d) es
  end.

Definition rglob_sel (sel : string -> bool) (fs : list node) : list Path :=
  select sel [] fs ++ flat_map (descend sel []) fs.

(** [Path(data_path).rglob(pat)] on a root directory holding [fs]. *)
Definition rglob (fl : flavour) (pat : string) (fs : list node) : list Path :=
  rglob_sel (matches fl pat) fs.

(** The recursive walk of the root directory: every entry, in the order the
    walk meets it ([rglob('*')]). *)
Definition walk (fs : list node) : list Path := rglob_sel (fun _ => true) fs.

(** ** Effects: a trace of events and an exception result *)

Inductive exn := Exception (cls : string).

Inductive message :=
| MsgBanner
| MsgSearching
| MsgFoundReal (n : nat)
| MsgFoundFake (n : nat)
| MsgNoAudio
| MsgCreating
| MsgErrCombined (e : exn)
| MsgErrReal (e : exn)
| MsgErrFake (e : exn)
| MsgWaveformSaved (pdf : Path)
| MsgSkipping
| MsgDetailedSaved (pdf : Path)
| MsgErrDetailed (e : exn)
| MsgAllDone.

(** An axes object of a figure, by its index ([axes[r, c]], or [axes[r]]
    with [c = 0] for the one-column figure). *)
Inductive axis := Ax (r c : nat).

Inductive event :=
| Print (m : message)
| Mkdir (p : Path)
| Subplots (rows cols : nat)
| Plot (ax : axis) (npoints : nat)
| Hist (ax : axis) (nvalues : nat)
| Text (ax : axis) (s : string)
| Savefig (pdf : Path)
| Close.

Inductive result (X : Type) :=
| Ok (x : X)
| Raise (e : exn).
Arguments Ok {X} x.
Arguments Raise {X} e.

(** A computation: the events it performed and how it ended. *)
Definition M (X : Type) : Type := (list event * result X)%type.

Definition ret {X} (x : X) : M X := ([], Ok x).

Definition bind {X Y} (m : M X) (k : X -> M Y) : M Y :=
  match m with
  | (t, Ok x) => let (t', r) := k x in (t ++ t', r)
  | (t, Raise e) => (t, Raise e)
  end.

Definition emit (ev : event) : M unit := ([ev], Ok tt).

Definition print (m : message) : M unit := emit (Print m).

Definition raise {X} (e : exn) : M X := ([], Raise e).

(** [try: body  except Exception as e: handler e] *)
Definition try_except {X} (body : M X) (handler : exn -> M X) : M X :=
  match body with
  | (t, Ok x) => (t, Ok x)
  | (t, Raise e) => let (t', r) := handler e in (t ++ t', r)
  end.

Declare Scope py_scope.
Delimit Scope py_scope with py.
Notation "x <- m ;; k" := (bind m (fun x => k))
  (at level 100, m at next level, right associativity) : py_scope.
Notation "' pat <- m ;; k" := (bind m (fun x => match x with pat => k end))
  (at level 100, pat pattern, m at next level, right associativity) : py_scope.
Notation "m ;;; k" := (bind m (fun _ => k))
  (at level 100, right associativity) : py_scope.
Local Open Scope py_scope.

Definition trace {X} (m : M X) : list event := fst m.
Definition outcome {X} (m : M X) : result X := snd m.

(** ** The analyzer and the scan *)

Record WaveformAnalyzer := mkAnalyzer {
  data_path : string;
  real_files : list Path;
  fake_files : list Path
}.

(** [WaveformAnalyzer.__init__] *)
Definition init (data_path : string) : WaveformAnalyzer :=
  mkAnalyzer data_path [] [].

Definition audio_extensions : list string := ["*.wav"; "*.mp3"; "*.flac"; "*.m4a"].

Definition real_keywords : list string := ["real"; "genuine"; "original"; "natural"].
Definition fake_keywords : list string := ["fake"; "synthetic"; "generated"; "artificial"].

(** [any(keyword in filename or keyword in file_path_str.lower() for keyword in kws)] *)
Definition any_keyword (kws : list string) (filename path_lower : string) : bool :=
  existsb (fun keyword => contains keyword filename || contains keyword path_lower) kws.

Definition append_real (a : WaveformAnalyzer) (p : Path) : WaveformAnalyzer :=
  mkAnalyzer (data_path a) (real_files a ++ [p]) (fake_files a).

Definition append_fake (a : WaveformAnalyzer) (p : Path) : WaveformAnalyzer :=
  mkAnalyzer (data_path a) (real_files a) (fake_files a ++ [p]).

(** The body of the inner loop of [find_audio_files]. *)
Definition categorize (fl : flavour) (a : WaveformAnalyzer) (file_path : Path)
  : WaveformAnalyzer :=
  let filename := lower (name file_path) in
  let file_path_str := path_str fl (data_path a) file_path in
  if any_keyword real_keywords filename (lower file_path_str) then
    append_real a file_path
  else if any_keyword fake_keywords filename (lower file_path_str) then
    append_fake a file_path
  else if (List.length (real_files a) <=? List.length (fake_files a))%nat then
    append_real a file_path
  else
    append_fake a file_path.

(** The two nested loops: one full [rglob] per extension pattern. *)
Definition scan_loop (fl : flavour) (fs : list node) (a : WaveformAnalyzer)
  : WaveformAnalyzer :=
  fold_left
    (fun a ext => fold_left (categorize fl) (rglob fl ext fs) a)
    audio_extensions a.

(** [find_audio_files]: the analyzer after the scan and the returned flag. *)
Definition find_audio_files (fl : flavour) (fs : list node) (a : WaveformAnalyzer)
  : M (WaveformAnalyzer * bool) :=
  print MsgSearching ;;;
  let a' := scan_loop fl fs a in
  print (MsgFoundReal (List.length (real_files a'))) ;;;
  print (MsgFoundFake (List.length (fake_files a'))) ;;;
  match real_files a', fake_files a' with
  | [], [] => print MsgNoAudio ;;; ret (a', false)
  | _, _ => ret (a', true)
  end.

(** The order in which the scan processes the discovered paths. *)
Definition scan_order (fl : flavour) (fs : list node) : list Path :=
  flat_map (fun ext => rglob fl ext fs) audio_extensions.

(** The two keyword tests of [categorize], for a dataset root [root]. *)
Definition real_match (fl : flavour) (root : string) (p : Path) : bool :=
  any_keyword real_keywords (lower (name p)) (lower (path_str fl root p)).

Definition fake_match (fl : flavour) (root : string) (p : Path) : bool :=
  any_keyword fake_keywords (lower (name p)) (lower (path_str fl root p)).

(** A string that holds none of the eight keywords, whatever its case. *)
Definition no_keyword (s : string) : Prop :=
  forall kw, In kw (real_keywords ++ fake_keywords) -> contains kw (lower s) = false.

(** ** Well-formed directories and orderings *)

Fixpoint distinct (l : list string) : bool :=
  match l with
  | [] => true
  | x :: l' => negb (existsb (String.eqb x) l') && distinct l'
  end.

(** No directory holds two entries of one name. *)
Fixpoint wf_node (n : node) : bool :=
  match n with
  | File _ => true
  | Dir _ es => distinct (map entry_name es) && forallb wf_node es
  end.

Definition wf_fs (fs : list node) : bool :=
  distinct (map entry_name fs) && forallb wf_node fs.

(** Induction on a directory tree, with the hypothesis for every entry of a
    directory. *)
Fixpoint node_nested_ind (P : node -> Prop)
    (HF : forall nm, P (File nm))
    (HD : forall nm es, Forall P es -> P (Dir nm es))
    (n : node) : P n :=
  match n with
  | File nm => HF nm
  | Dir nm es =>
      HD nm es
         ((fix all (l : list node) : Forall P l :=
             match l with
             | [] => Forall_nil P
             | e :: l' => Forall_cons e (node_nested_ind P HF HD e) (all l')
             end) es)
  end.

(** [x] occurs in [l] at some position and [y] at a later one. *)
Fixpoint before {A} (x y : A) (l : list A) : Prop :=
  match l with
  | [] => False
  | z :: l' => (z = x /\ In y l') \/ before x y l'
  end.

(** [seq] keeps the relative order that [order] gives to its members. *)
Definition follows_order {A} (order seq : list A) : Prop :=
  forall x y, before x y order -> In x seq -> In y seq -> before x y seq.

(** [l] deals each of its elements, in order, to exactly one of [l1], [l2]. *)
Inductive interleave {A} : list A -> list A -> list A -> Prop :=
| interleave_nil : interleave [] [] []
| interleave_left x l1 l2 l :
    interleave l1 l2 l -> interleave (x :: l1) l2 (x :: l)
| interleave_right x l1 l2 l :
    interleave l1 l2 l -> interleave l1 (x :: l2) (x :: l).

Inductive subseq {A} : list A -> list A -> Prop :=
| subseq_nil : subseq [] []
| subseq_skip x s l : subseq s l -> subseq s (x :: l)
| subseq_take x s l : subseq s l -> subseq (x :: s) (x :: l).

(** The last character of a string. *)
Fixpoint final (s : string) : option ascii :=
  match s with
  | EmptyString => None
  | String c EmptyString => Some c
  | String _ s' => final s'
  end.

(** The name as the flavour's pattern matcher sees it. *)
Definition folded (fl : flavour) (nm : string) : string :=
  match fl with Posix => nm | Windows => lower nm end.

(** The analyzer as [find_audio_files] leaves a fresh one. *)
Definition scanned (fl : flavour) (fs : list node) (root : string) : WaveformAnalyzer :=
  match outcome (find_audio_files fl fs (init root)) with
  | Ok (a, _) => a
  | Raise _ => init root
  end.

(** ** Rendering *)

Definition DATASET_PATH : string := "C:\Users\MZ\Downloads\Dataset".

Definition output_dir : Path := ["plots"].
Definition waveform_pdf : Path := output_dir ++ ["waveform_analysis.pdf"].
Definition detailed_pdf : Path := output_dir ++ ["detailed_waveform_analysis.pdf"].

Definition newline : string := String (ascii_of_nat 10) "".

(** [a[:k]] for a Python sequence: a negative [k] counts from the end. *)
Definition slice_to {A} (k : Z) (l : list A) : list A :=
  if (0 <=? k)%Z then firstn (Z.to_nat k) l
  else firstn (Z.to_nat (Z.of_nat (List.length l) + k)) l.

(** [len(np.arange(k))] *)
Definition arange_len (k : Z) : nat := Z.to_nat k.

(** [min(sr_real, sr_fake, 22050)] *)
Definition target_rate (sr_real sr_fake : Z) : Z :=
  Z.min (Z.min sr_real sr_fake) 22050.

(** A Python [float]: an IEEE 754 double (53 bits of mantissa), rounded to
    nearest even.  [double_of_Z] is [float(z)]. *)
Definition double_of_Z (z : Z) : SpecFloat.spec_float :=
  SpecFloat.binary_normalize 53 1024 z 0 false.

(** [int(np.ceil(x))]; there is no result for an infinity or a NaN. *)
Definition double_ceil (x : SpecFloat.spec_float) : option Z :=
  match x with
  | SpecFloat.S754_zero _ => Some 0%Z
  | SpecFloat.S754_finite s m e =>
      let floor_abs :=
        if (0 <=? e)%Z then (Zpos m * 2 ^ e)%Z else (Zpos m / 2 ^ (- e))%Z in
      let ceil_abs :=
        if (0 <=? e)%Z then (Zpos m * 2 ^ e)%Z
        else (- ((- Zpos m) / 2 ^ (- e)))%Z in
      Some (if s then (- floor_abs)%Z else ceil_abs)
  | _ => None
  end.

(** The number of samples [librosa.resample] gives its output:
    [int(np.ceil(n * (float(target_sr) / orig_sr)))], evaluated in doubles.
    There is no number when the division or the conversion raises. *)
Definition resample_length (n : nat) (orig_sr target_sr : Z) : option Z :=
  if (orig_sr =? 0)%Z then None
  else
    let ratio :=
      SpecFloat.SFdiv 53 1024 (double_of_Z target_sr) (double_of_Z orig_sr) in
    double_ceil (SpecFloat.SFmul 53 1024 (double_of_Z (Z.of_nat n)) ratio).


Section Rendering.

(** One amplitude value; the script never inspects it. *)
Variable sample : Type.

(** What the libraries do in one run: [None] in an [option exn] means the
    call succeeds. *)
Record World := mkWorld {
  w_mkdir : option exn;
  w_subplots : nat -> nat -> option exn;
  w_load : Path -> result (list sample * Z);
  w_resample : list sample -> Z -> Z -> result (list sample);
  w_hist : list sample -> option exn;
  w_savefig : Path -> option exn
}.

Variable w : World.

Definition call {X} (r : result X) : M X := ([], r).

Definition guarded (o : option exn) (ev : event) : M unit :=
  match o with
  | None => emit ev
  | Some e => raise e
  end.

(** [output_dir.mkdir(exist_ok=True)] *)
Definition mkdir : M unit := guarded (w_mkdir w) (Mkdir output_dir).

(** [plt.subplots(rows, cols, ...)] *)
Definition subplots (rows cols : nat) : M unit :=
  guarded (w_subplots w rows cols) (Subplots rows cols).

(** [librosa.load(file, sr=None)] *)
Definition load (file : Path) : M (list sample * Z) := call (w_load w file).

(** [ax.plot(x, y)]: the lengths of the two arrays must agree. *)
Definition plot (ax : axis) (xlen ylen : nat) : M unit :=
  if (xlen =? ylen)%nat then emit (Plot ax ylen)
  else raise (Exception "ValueError").

(** [ax.hist(values, bins=50, density=True)] *)
Definition hist (ax : axis) (values : list sample) : M unit :=
  guarded (w_hist w values) (Hist ax (List.length values)).

(** [plt.savefig(pdf_path, ...)] *)
Definition savefig (pdf : Path) : M unit := guarded (w_savefig w pdf) (Savefig pdf).

(** Plot 1 of the comparison figure: both signals over their own time axes. *)
Definition plot_combined (real_example fake_example : Path) : M unit :=
  try_except
    (' (audio_real, sr_real) <- load real_example ;;
     ' (audio_fake, sr_fake) <- load fake_example ;;
     let time_real := List.length audio_real in
     let time_fake := List.length audio_fake in
     plot (Ax 0 0) time_real (List.length audio_real) ;;;
     plot (Ax 0 0) time_fake (List.length audio_fake))
    (fun e => print (MsgErrCombined e)).

(** Plots 2 and 3: the first five seconds of one example on its own axes. *)
Definition plot_first5 (ax : axis) (err : exn -> message) (example : Path) : M unit :=
  try_except
    (' (audio, sr) <- load example ;;
     let max_samples := Z.min (Z.of_nat (List.length audio)) (5 * sr) in
     let time := arange_len max_samples in
     plot ax time (List.length (slice_to max_samples audio)))
    (fun e => print (err e)).

Definition summary_text (real_example fake_example : option Path) : string :=
  ("Waveform analysis complete." ++ newline ++ newline
   ++ match real_example with
      | Some p => "Real: " ++ name p ++ newline
      | None => ""
      end
   ++ match fake_example with
      | Some p => "Fake: " ++ name p
      | None => ""
      end)%string.

(** [create_waveform_comparison].  Calls that only decorate an axes object
    (titles, labels, legend, grid, layout) leave no event. *)
Definition create_waveform_comparison (a : WaveformAnalyzer) : M unit :=
  print MsgCreating ;;;
  mkdir ;;;
  subplots 2 2 ;;;
  let real_example := hd_error (real_files a) in
  let fake_example := hd_error (fake_files a) in
  match real_example, fake_example with
  | Some r, Some f => plot_combined r f
  | _, _ => ret tt
  end ;;;
  match real_example with
  | Some r => plot_first5 (Ax 0 1) MsgErrReal r
  | None => ret tt
  end ;;;
  match fake_example with
  | Some f => plot_first5 (Ax 1 0) MsgErrFake f
  | None => ret tt
  end ;;;
  emit (Text (Ax 1 1) (summary_text real_example fake_example)) ;;;
  savefig waveform_pdf ;;;
  emit Close ;;;
  print (MsgWaveformSaved waveform_pdf).

(** Lines 151-154: resample one signal unless it is already at the target. *)
Definition resample_to (target_sr : Z) (audio : list sample) (sr : Z)
  : M (list sample) :=
  if (sr =? target_sr)%Z then ret audio
  else call (w_resample w audio sr target_sr).

(** Lines 147-154: decode both examples and bring them to one rate. *)
Definition prepare_signals (real_example fake_example : Path)
  : M (list sample * list sample * Z) :=
  ' (real_audio, sr_real) <- load real_example ;;
  ' (fake_audio, sr_fake) <- load fake_example ;;
  let target_sr := target_rate sr_real sr_fake in
  real_audio <- resample_to target_sr real_audio sr_real ;;
  fake_audio <- resample_to target_sr fake_audio sr_fake ;;
  ret (real_audio, fake_audio, target_sr).

(** Lines 156-181: the three panels and the save. *)
Definition render_detailed (real_audio fake_audio : list sample) (target_sr : Z)
  : M unit :=
  let time := List.length real_audio in
  plot (Ax 0 0) time (List.length real_audio) ;;;
  plot (Ax 0 0) time (List.length fake_audio) ;;;
  let zoom_dur := 2%Z in
  let zoom_samples := (zoom_dur * target_sr)%Z in
  plot (Ax 1 0) (arange_len zoom_samples)
       (List.length (slice_to zoom_samples real_audio)) ;;;
  plot (Ax 1 0) (arange_len zoom_samples)
       (List.length (slice_to zoom_samples fake_audio)) ;;;
  hist (Ax 2 0) real_audio ;;;
  hist (Ax 2 0) fake_audio ;;;
  savefig detailed_pdf ;;;
  emit Close ;;;
  print (MsgDetailedSaved detailed_pdf).

(** Lines 147-181: everything inside the [try] block. *)
Definition detailed_body (real_example fake_example : Path) : M unit :=
  ' (real_audio, fake_audio, target_sr) <-
    prepare_signals real_example fake_example ;;
  render_detailed real_audio fake_audio target_sr.

(** [create_detailed_waveform_analysis] *)
Definition create_detailed_waveform_analysis (a : WaveformAnalyzer) : M unit :=
  match real_files a, fake_files a with
  | real_example :: _, fake_example :: _ =>
      mkdir ;;;
      subplots 3 1 ;;;
      try_except
        (detailed_body real_example fake_example)
        (fun e => print (MsgErrDetailed e))
  | _, _ => print MsgSkipping
  end.

(** [main], run on a dataset directory holding [fs]. *)
Definition main (fl : flavour) (fs : list node) : M unit :=
  print MsgBanner ;;;
  let analyzer := init DATASET_PATH in
  ' (analyzer, found) <- find_audio_files fl fs analyzer ;;
  if negb found then ret tt
  else
    create_waveform_comparison analyzer ;;;
    create_detailed_waveform_analysis analyzer ;;;
    print MsgAllDone.

End Rendering.

Arguments mkWorld {sample}.
Arguments w_mkdir {sample}.
Arguments w_subplots {sample}.
Arguments w_load {sample}.
Arguments w_resample {sample}.
Arguments w_hist {sample}.
Arguments w_savefig {sample}.
Arguments create_waveform_comparison {sample}.
Arguments create_detailed_waveform_analysis {sample}.
Arguments prepare_signals {sample}.
Arguments render_detailed {sample}.
Arguments detailed_body {sample}.
Arguments plot_first5 {sample}.
Arguments plot_combined {sample}.
Arguments resample_to {sample}.
Arguments main {sample}.

(** Did the run write [pdf]? *)
Definition saved (pdf : Path) (t : list event) : Prop := In (Savefig pdf) t.

(** Was something drawn on [ax]? *)
Definition populated (ax : axis) (t : list event) : Prop :=
  exists n, In (Plot ax n) t.

(** No file-system write at all: no directory made, no figure saved. *)
Definition writes_nothing (t : list event) : Prop :=
  forall ev, In ev t ->
    match ev with Mkdir _ | Savefig _ => False | _ => True end.

(** ** Sample inputs *)

(** A small dataset: files of three extensions, a sub-directory, an entry
    that is no audio file. *)
Definition sample_fs : list node :=
  [File "fake_b.mp3";
   Dir "sub" [File "x.WAV"; File "real.wav"; Dir "deep" [File "q.flac"]];
   File "fake_a.wav";
   File "notes.txt"].

(** Two files the keywords do not decide. *)
Definition unknown_fs : list node := [File "a.wav"; File "b.wav"].

(** The directory of the spec's example. *)
Definition samples_fs : list node :=
  [File "real_sample.wav"; File "fake_sample.wav"].

(** An [mp3] file listed before a [wav] file. *)
Definition mixed_fs : list node := [File "fake_b.mp3"; File "fake_a.wav"].

(** A directory without audio files. *)
Definition notes_fs : list node := [File "notes.txt"; Dir "plots" [File "old.pdf"]].

(** A run in which [real_sample.wav] decodes to [nr] samples at rate [sr_r],
    [fake_sample.wav] to [nf] samples at rate [sr_f], nothing else decodes,
    the resampler returns as many samples as [librosa.resample] computes
    (at least one, or it raises), and creating the output directory ends as
    [mk] says. *)
Definition studio (nr nf : nat) (sr_r sr_f : Z) (mk : option exn) : World unit :=
  mkWorld mk
          (fun _ _ => None)
          (fun p =>
             match p with
             | ["real_sample.wav"] => Ok (repeat tt nr, sr_r)
             | ["fake_sample.wav"] => Ok (repeat tt nf, sr_f)
             | _ => Raise (Exception "NoBackendError")
             end)
          (fun y o t =>
             if (o =? t)%Z then Ok y
             else
               match resample_length (List.length y) o t with
               | Some n =>
                   if (1 <=? n)%Z then Ok (repeat tt (Z.to_nat n))
                   else Raise (Exception "ParameterError")
               | None => Raise (Exception "ArithmeticError")
               end)
          (fun _ => None)
          (fun _ => None).

(** An analyzer after a scan that found one file of each kind. *)
Definition paired : WaveformAnalyzer :=
  mkAnalyzer DATASET_PATH [["real_sample.wav"]] [["fake_sample.wav"]].

(** An analyzer after a scan that found a real file only. *)
Definition real_only : WaveformAnalyzer :=
  mkAnalyzer DATASET_PATH [["real_sample.wav"]] [].

(** ** Further vocabulary *)

(** The elements at positions 0, 2, 4, ... of a list. *)
Fixpoint evens {A} (l : list A) : list A :=
  match l with
  | [] => []
  | [x] => [x]
  | x :: _ :: l' => x :: evens l'
  end.

(** The elements at positions 1, 3, 5, ... of a list. *)
Definition odds {A} (l : list A) : list A :=
  match l with
  | [] => []
  | _ :: l' => evens l'
  end.

(** The four extensions the patterns of [audio_extensions] ask for. *)
Definition audio_suffixes : list string := [".wav"; ".mp3"; ".flac"; ".m4a"].

(** A dataset with a folder per class and neutral file names. *)
Definition folders_fs : list node :=
  [Dir "Genuine" [File "001.wav"; File "002.wav"];
   Dir "Synthetic" [File "001.wav"; File "002.mp3"]].

(** Five files the keywords do not decide. *)
Definition neutral_fs : list node :=
  [File "a.wav"; File "b.wav"; File "c.wav"; File "d.mp3"; File "e.flac"].

(** * Proofs *)

(** ** Strings *)

Section StringFacts.

Lemma lower_app (a b : string) :
  lower (a ++ b)%string = (lower a ++ lower b)%string.
Proof.
  induction a as [|c a IH]; simpl; [reflexivity | now rewrite IH].
Qed.

Lemma prefix_empty (s : string) : prefix "" s = true.
Proof. now destruct s. Qed.

(** A keyword that starts inside [a] and runs over a character it does not
    hold cannot be a prefix of [a ++ c :: b] unless it ends inside [a]. *)
Lemma prefix_app_sep (kw a b : string) (c : ascii) :
  occurs c kw = false ->
  prefix kw (a ++ String c b)%string = true ->
  prefix kw a = true.
Proof.
  revert a; induction kw as [|k kw IH]; intros a Hc Hp.
  - apply prefix_empty.
  - simpl in Hc. apply orb_false_elim in Hc as [Hck Hc].
    destruct a as [|x a]; simpl in Hp |- *.
    + destruct (ascii_dec k c) as [->|Hne]; [|discriminate].
      now rewrite Ascii.eqb_refl in Hck.
    + destruct (ascii_dec k x) as [->|Hne]; [|discriminate].
      now apply IH.
Qed.

(** An occurrence of [kw] in [a ++ c :: b] lies wholly in [a] or wholly in
    [b] when [c] is not a character of [kw]. *)
Lemma contains_app_sep (kw a b : string) (c : ascii) :
  occurs c kw = false ->
  contains kw (a ++ String c b)%string = true ->
  contains kw a = true \/ contains kw b = true.
Proof.
  intros Hc. induction a as [|x a IH]; intros H.
  - change (("" ++ String c b)%string) with (String c b) in H.
    simpl in H. apply orb_prop in H as [H|H]; [|now right].
    left. destruct kw as [|k kw]; [reflexivity|].
    simpl in Hc. apply orb_false_elim in Hc as [Hck _].
    simpl in H. destruct (ascii_dec k c) as [->|Hne]; [|discriminate].
    now rewrite Ascii.eqb_refl in Hck.
  - change ((String x a ++ String c b)%string)
      with (String x (a ++ String c b)%string) in H.
    simpl in H. apply orb_prop in H as [H|H].
    + left. simpl. apply orb_true_intro. left.
      now apply (prefix_app_sep kw (String x a) b c).
    + destruct (IH H) as [Ha|Hb]; [left|now right].
      simpl. rewrite Ha. apply orb_true_r.
Qed.

Lemma contains_app_sep_false (kw a b : string) (c : ascii) :
  occurs c kw = false ->
  contains kw a = false ->
  contains kw b = false ->
  contains kw (a ++ String c b)%string = false.
Proof.
  intros Hc Ha Hb.
  destruct (contains kw (a ++ String c b)%string) eqn:E; [|reflexivity].
  destruct (contains_app_sep kw a b c Hc E); congruence.
Qed.

Lemma lower_sep (fl : flavour) : lower_ascii (sep fl) = sep fl.
Proof. now destruct fl. Qed.

Lemma final_app (a b : string) :
  b <> ""%string -> final (a ++ b)%string = final b.
Proof.
  intros Hb. induction a as [|c a IH]; [reflexivity|].
  change ((String c a ++ b)%string) with (String c (a ++ b)%string).
  simpl. rewrite IH.
  destruct (a ++ b)%string eqn:E; [|reflexivity].
  destruct a; simpl in E; [congruence | discriminate].
Qed.

(** A pattern without [*] matches itself only. *)
Lemma fnmatch_literal (lit s : string) :
  occurs "*" lit = false -> fnmatch lit s = true -> s = lit.
Proof.
  revert s; induction lit as [|c lit IH]; intros s Hs H.
  - destruct s; [reflexivity | discriminate].
  - cbn [occurs] in Hs. apply orb_false_elim in Hs as [Hc Hs].
    cbn [fnmatch] in H. rewrite Ascii.eqb_sym in Hc. rewrite Hc in H.
    destruct s as [|d s]; [discriminate|].
    apply andb_prop in H as [Hcd H].
    apply Ascii.eqb_eq in Hcd as ->. f_equal. now apply IH.
Qed.

(** [*lit] matches exactly the names that end in [lit]. *)
Lemma fnmatch_star_suffix (lit s : string) :
  occurs "*" lit = false ->
  fnmatch (String "*" lit) s = true ->
  exists pre, s = (pre ++ lit)%string.
Proof.
  intros Hs. induction s as [|d s IH]; intros H.
  - cbn [fnmatch] in H. rewrite Ascii.eqb_refl, orb_false_r in H.
    exists ""%string. simpl. now apply fnmatch_literal.
  - cbn [fnmatch] in H. rewrite Ascii.eqb_refl in H.
    apply orb_prop in H as [H|H].
    + exists ""%string. simpl. now apply fnmatch_literal.
    + destruct IH as [pre ->]; [|now exists (String d pre)].
      cbn [fnmatch]. now rewrite Ascii.eqb_refl.
Qed.

End StringFacts.

(** ** Orderings on lists *)

Section ListFacts.

Context {A : Type}.
Implicit Types (l s : list A) (x y : A).

Lemma before_in x y l : before x y l -> In x l /\ In y l.
Proof.
  induction l as [|z l IH]; simpl; [tauto|].
  intros [[-> Hy]|H]; [tauto|]. destruct (IH H); tauto.
Qed.

Lemma before_app_l x y l l' : before x y l -> before x y (l ++ l').
Proof.
  induction l as [|z l IH]; simpl; [tauto|].
  intros [[-> Hy]|H]; [left | right; auto].
  split; [reflexivity | apply in_or_app; now left].
Qed.

Lemma before_app_r x y l l' : before x y l' -> before x y (l ++ l').
Proof. induction l as [|z l IH]; simpl; auto. Qed.

Lemma before_app x y l l' : In x l -> In y l' -> before x y (l ++ l').
Proof.
  induction l as [|z l IH]; simpl; [tauto|].
  intros [->|Hx] Hy; [left | right; auto].
  split; [reflexivity | apply in_or_app; now right].
Qed.

(** [before] is the usual split of the list around the two positions. *)
Lemma before_split x y l :
  before x y l <-> exists l1 l2 l3, l = l1 ++ x :: l2 ++ y :: l3.
Proof.
  split.
  - induction l as [|z l IH]; simpl; [tauto|].
    intros [[-> Hy]|H].
    + apply in_split in Hy as (l2 & l3 & ->). now exists [], l2, l3.
    + destruct (IH H) as (l1 & l2 & l3 & ->). now exists (z :: l1), l2, l3.
  - intros (l1 & l2 & l3 & ->). apply before_app_r. simpl. left.
    split; [reflexivity | apply in_or_app; right; now left].
Qed.

Lemma before_filter (f : A -> bool) x y l :
  before x y l -> f x = true -> f y = true -> before x y (filter f l).
Proof.
  intros H Hx Hy. induction l as [|z l IH]; simpl in *; [tauto|].
  destruct H as [[-> Hin]|H].
  - rewrite Hx. simpl. left. split; [reflexivity|]. apply filter_In; tauto.
  - destruct (f z); simpl; auto.
Qed.

Lemma subseq_in s l x : subseq s l -> In x s -> In x l.
Proof.
  induction 1 as [|z s l H IH|z s l H IH]; simpl; [tauto | auto |].
  intros [->|Hx]; auto.
Qed.

(** A subsequence of a duplicate-free list keeps the order of the list. *)
Lemma subseq_follows_order s l :
  subseq s l -> NoDup l -> follows_order l s.
Proof.
  unfold follows_order.
  induction 1 as [|z s l H IH|z s l H IH]; intros Hnd x y Hb Hx Hy.
  - destruct Hx.
  - inversion Hnd as [|? ? Hz Hl]; subst. simpl in Hb.
    destruct Hb as [[-> Hin]|Hb]; [|now apply IH].
    exfalso. apply Hz. now apply (subseq_in s l).
  - inversion Hnd as [|? ? Hz Hl]; subst. simpl in Hb, Hx, Hy |- *.
    destruct Hb as [[-> Hin]|Hb].
    + left. split; [reflexivity|].
      destruct Hy as [->|Hy]; [tauto | exact Hy].
    + right. destruct (before_in _ _ _ Hb) as [Hxl Hyl].
      apply IH; trivial.
      * destruct Hx as [->|Hx]; [tauto | exact Hx].
      * destruct Hy as [->|Hy]; [tauto | exact Hy].
Qed.

Lemma interleave_subseq l1 l2 l :
  interleave l1 l2 l -> subseq l1 l /\ subseq l2 l.
Proof.
  induction 1 as [|x l1 l2 l H [IH1 IH2]|x l1 l2 l H [IH1 IH2]];
    split; constructor; assumption.
Qed.

Lemma interleave_perm l1 l2 l : interleave l1 l2 l -> Permutation (l1 ++ l2) l.
Proof.
  induction 1 as [|x l1 l2 l H IH|x l1 l2 l H IH]; simpl.
  - constructor.
  - now constructor.
  - etransitivity; [symmetry; apply Permutation_middle|]. now constructor.
Qed.

Lemma interleave_in l1 l2 l x :
  interleave l1 l2 l -> (In x l <-> In x l1 \/ In x l2).
Proof.
  induction 1 as [|z l1 l2 l H IH|z l1 l2 l H IH]; simpl; tauto.
Qed.

(** In a duplicate-free deal no element is dealt to both hands. *)
Lemma interleave_disjoint l1 l2 l x :
  interleave l1 l2 l -> NoDup l -> In x l1 -> In x l2 -> False.
Proof.
  induction 1 as [|z l1 l2 l H IH|z l1 l2 l H IH]; simpl; intros Hnd H1 H2.
  - assumption.
  - inversion Hnd as [|? ? Hz Hl]; subst.
    destruct H1 as [->|H1]; [|auto].
    apply Hz. apply (interleave_in _ _ _ x H). now right.
  - inversion Hnd as [|? ? Hz Hl]; subst.
    destruct H2 as [->|H2]; [|auto].
    apply Hz. apply (interleave_in _ _ _ x H). now left.
Qed.

(** Filtering one duplicate-free list by mutually exclusive tests, one
    after the other, yields no duplicate. *)
Lemma NoDup_flat_map_filter {K} (f : K -> A -> bool) l (ks : list K) :
  NoDup l -> NoDup ks ->
  (forall k1 k2 x, In k1 ks -> In k2 ks ->
                   f k1 x = true -> f k2 x = true -> k1 = k2) ->
  NoDup (flat_map (fun k => filter (f k) l) ks).
Proof.
  intros Hl Hks. induction Hks as [|k ks Hk Hks IH]; intros Hex; simpl.
  - constructor.
  - apply NoDup_app.
    + now apply NoDup_filter.
    + apply IH. intros k1 k2 x H1 H2. apply Hex; now right.
    + intros x Hx Hx'. apply filter_In in Hx as [_ Hfx].
      apply in_flat_map in Hx' as (k' & Hk' & Hx').
      apply filter_In in Hx' as [_ Hfx'].
      assert (k = k') as -> by (apply (Hex k k' x); simpl; auto).
      contradiction.
Qed.

End ListFacts.

(** ** The directory walk *)

Section WalkFacts.

Lemma name_snoc (d : Path) (nm : string) : name (d ++ [nm]) = nm.
Proof. apply last_last. Qed.

Lemma filter_true {A} (l : list A) : filter (fun _ => true) l = l.
Proof. induction l; simpl; congruence. Qed.

Lemma filter_flat_map {A B} (f : B -> bool) (g : A -> list B) (l : list A) :
  filter f (flat_map g l) = flat_map (fun a => filter f (g a)) l.
Proof.
  induction l as [|a l IH]; simpl; [reflexivity|].
  now rewrite filter_app, IH.
Qed.

Lemma select_all (d : Path) (es : list node) :
  select (fun _ => true) d es = map (fun e => d ++ [entry_name e]) es.
Proof. unfold select. now rewrite filter_true. Qed.

Lemma select_filter (sel : string -> bool) (d : Path) (es : list node) :
  select sel d es = filter (fun p => sel (name p)) (select (fun _ => true) d es).
Proof.
  rewrite select_all, filter_map_swap. unfold select. f_equal.
  apply filter_ext. intros e. now rewrite name_snoc.
Qed.

Lemma descend_filter (sel : string -> bool) (n : node) :
  forall here,
    descend sel here n
    = filter (fun p => sel (name p)) (descend (fun _ => true) here n).
Proof.
  induction n as [nm|nm es IH] using node_nested_ind; intros here.
  - reflexivity.
  - cbn [descend]. rewrite filter_app, <- select_filter. f_equal.
    rewrite filter_flat_map.
    induction IH as [|e es He Hes IHes]; simpl; [reflexivity|].
    now rewrite He, IHes.
Qed.

(** One [rglob] is the walk, filtered by the pattern. *)
Lemma rglob_sel_filter (sel : string -> bool) (fs : list node) :
  rglob_sel sel fs = filter (fun p => sel (name p)) (walk fs).
Proof.
  unfold walk, rglob_sel.
  rewrite filter_app, <- select_filter, filter_flat_map. f_equal.
  apply flat_map_ext. intros e. apply descend_filter.
Qed.

Lemma rglob_filter (fl : flavour) (ext : string) (fs : list node) :
  rglob fl ext fs = filter (fun p => matches fl ext (name p)) (walk fs).
Proof. apply rglob_sel_filter. Qed.

(** Paths found below an entry extend the entry's own path. *)
Lemma descend_shape (sel : string -> bool) (n : node) :
  forall here p,
    In p (descend sel here n) ->
    exists rest, rest <> [] /\ p = here ++ entry_name n :: rest.
Proof.
  induction n as [nm|nm es IH] using node_nested_ind; intros here p Hp.
  - destruct Hp.
  - cbn [descend] in Hp. apply in_app_or in Hp as [Hp|Hp].
    + unfold select in Hp. apply in_map_iff in Hp as (e & <- & _).
      exists [entry_name e]. split; [discriminate|].
      simpl. now rewrite <- app_assoc.
    + apply in_flat_map in Hp as (e & He & Hp).
      rewrite Forall_forall in IH.
      destruct (IH e He _ _ Hp) as (rest & _ & ->).
      exists (entry_name e :: rest). split; [discriminate|].
      simpl. now rewrite <- app_assoc.
Qed.

Lemma distinct_NoDup (l : list string) : distinct l = true -> NoDup l.
Proof.
  induction l as [|x l IH]; simpl; intros H; constructor.
  - apply andb_prop in H as [H _]. intros Hin.
    apply negb_true_iff in H.
    assert (existsb (String.eqb x) l = true) as E; [|congruence].
    apply existsb_exists. exists x. split; [exact Hin | apply String.eqb_refl].
  - apply andb_prop in H as [_ H]. auto.
Qed.

(** The entries of one directory and everything below them, given that the
    part below each entry has no duplicate. *)
Lemma level_NoDup (d : Path) (es : list node) :
  NoDup (map entry_name es) ->
  Forall (fun e => NoDup (descend (fun _ => true) d e)) es ->
  NoDup (select (fun _ => true) d es ++ flat_map (descend (fun _ => true) d) es).
Proof.
  intros Hnames Hbelow. apply NoDup_app.
  - rewrite select_all.
    rewrite <- (map_map entry_name (fun nm => d ++ [nm])).
    apply Finite.Injective_map_NoDup; [|exact Hnames].
    intros x y Hxy. now apply app_inj_tail in Hxy.
  - induction Hbelow as [|e es He Hes IH]; simpl; [constructor|].
    inversion Hnames as [|? ? Hfresh Hrest]; subst.
    apply NoDup_app; auto.
    intros p Hp Hp'. apply in_flat_map in Hp' as (e' & He' & Hp').
    apply descend_shape in Hp as (r & _ & ->).
    apply descend_shape in Hp' as (r' & _ & Heq).
    apply app_inv_head in Heq. injection Heq as Hn _.
    apply Hfresh. rewrite Hn. now apply in_map.
  - intros p Hp Hp'. rewrite select_all in Hp.
    apply in_map_iff in Hp as (e & <- & _).
    apply in_flat_map in Hp' as (e' & _ & Hp').
    apply descend_shape in Hp' as (r & Hr & Heq).
    apply app_inv_head in Heq. injection Heq as _ Hnil. congruence.
Qed.

Lemma descend_NoDup (n : node) :
  wf_node n = true -> forall here, NoDup (descend (fun _ => true) here n).
Proof.
  induction n as [nm|nm es IH] using node_nested_ind; intros Hwf here.
  - constructor.
  - cbn [descend wf_node] in *. apply andb_prop in Hwf as [Hd Hall].
    apply level_NoDup; [now apply distinct_NoDup|].
    rewrite forallb_forall in Hall. rewrite Forall_forall in IH |- *.
    intros e He. apply IH; auto.
Qed.

(** In a well-formed directory the walk meets every path once. *)
Lemma walk_NoDup (fs : list node) : wf_fs fs = true -> NoDup (walk fs).
Proof.
  unfold wf_fs, walk, rglob_sel. intros Hwf.
  apply andb_prop in Hwf as [Hd Hall].
  apply level_NoDup; [now apply distinct_NoDup|].
  rewrite forallb_forall in Hall. apply Forall_forall.
  intros e He. apply descend_NoDup; auto.
Qed.

(** The last character of a name decides which pattern can match it. *)
Lemma matches_final (fl : flavour) (ext nm : string) :
  In ext audio_extensions ->
  matches fl ext nm = true ->
  final (folded fl nm) = final ext.
Proof.
  intros Hext Hm.
  assert (exists lit, ext = String "*" lit /\ lower ext = ext
                      /\ occurs "*" lit = false /\ lit <> ""%string)
    as (lit & -> & Hlow & Hstar & Hne).
  { simpl in Hext.
    destruct Hext as [<-|[<-|[<-|[<-|[]]]]];
      eexists; repeat split; try reflexivity; discriminate. }
  assert (fnmatch (String "*" lit) (folded fl nm) = true) as H.
  { destruct fl; unfold matches, folded in *; [exact Hm|].
    now rewrite Hlow in Hm. }
  apply fnmatch_star_suffix in H as [pre ->]; [|exact Hstar].
  rewrite final_app by exact Hne.
  symmetry. exact (final_app "*" lit Hne).
Qed.

Lemma matches_exclusive (fl : flavour) (e1 e2 nm : string) :
  In e1 audio_extensions -> In e2 audio_extensions ->
  matches fl e1 nm = true -> matches fl e2 nm = true -> e1 = e2.
Proof.
  intros H1 H2 M1 M2.
  pose proof (matches_final fl e1 nm H1 M1) as F1.
  pose proof (matches_final fl e2 nm H2 M2) as F2.
  rewrite F1 in F2. clear - H1 H2 F2. simpl in H1, H2.
  destruct H1 as [<-|[<-|[<-|[<-|[]]]]];
    destruct H2 as [<-|[<-|[<-|[<-|[]]]]];
    try reflexivity; discriminate.
Qed.

Lemma scan_order_filter (fl : flavour) (fs : list node) :
  scan_order fl fs
  = flat_map (fun ext => filter (fun p => matches fl ext (name p)) (walk fs))
             audio_extensions.
Proof. unfold scan_order. apply flat_map_ext. intros ext. apply rglob_filter. Qed.

(** The scan processes no path twice. *)
Lemma scan_order_NoDup (fl : flavour) (fs : list node) :
  wf_fs fs = true -> NoDup (scan_order fl fs).
Proof.
  intros Hwf. rewrite scan_order_filter.
  apply (NoDup_flat_map_filter (fun ext p => matches fl ext (name p))).
  - now apply walk_NoDup.
  - repeat constructor; simpl; intuition discriminate.
  - intros e1 e2 p H1 H2. now apply matches_exclusive.
Qed.

Lemma scan_order_in (fl : flavour) (fs : list node) (p : Path) :
  In p (scan_order fl fs) <->
  In p (walk fs) /\ exists ext, In ext audio_extensions
                                /\ matches fl ext (name p) = true.
Proof.
  rewrite scan_order_filter, in_flat_map. split.
  - intros (ext & He & Hp). apply filter_In in Hp as [Hp Hm]. eauto.
  - intros (Hp & ext & He & Hm). exists ext. split; [exact He|].
    apply filter_In. auto.
Qed.

End WalkFacts.

(** ** The scan *)

Section ScanFacts.

Variable fl : flavour.

Lemma categorize_real (a : WaveformAnalyzer) (p : Path) :
  real_match fl (data_path a) p = true -> categorize fl a p = append_real a p.
Proof. unfold real_match, categorize. now intros ->. Qed.

Lemma categorize_fake (a : WaveformAnalyzer) (p : Path) :
  real_match fl (data_path a) p = false ->
  fake_match fl (data_path a) p = true ->
  categorize fl a p = append_fake a p.
Proof. unfold real_match, fake_match, categorize. now intros -> ->. Qed.

Lemma categorize_unknown (a : WaveformAnalyzer) (p : Path) :
  real_match fl (data_path a) p = false ->
  fake_match fl (data_path a) p = false ->
  categorize fl a p
  = if (List.length (real_files a) <=? List.length (fake_files a))%nat
    then append_real a p else append_fake a p.
Proof. unfold real_match, fake_match, categorize. now intros -> ->. Qed.

(** One iteration appends the path to one list and leaves the other alone. *)
Lemma categorize_cases (a : WaveformAnalyzer) (p : Path) :
  categorize fl a p = append_real a p \/ categorize fl a p = append_fake a p.
Proof.
  unfold categorize.
  destruct (any_keyword real_keywords _ _); [now left|].
  destruct (any_keyword fake_keywords _ _); [now right|].
  destruct (_ <=? _)%nat; [now left | now right].
Qed.

Lemma fold_left_flat_map {S K B} (g : S -> B -> S) (h : K -> list B)
    (ks : list K) (s : S) :
  fold_left (fun s k => fold_left g (h k) s) ks s
  = fold_left g (flat_map h ks) s.
Proof.
  revert s; induction ks as [|k ks IH]; intros s; simpl; [reflexivity|].
  now rewrite fold_left_app, IH.
Qed.

(** The nested loops process [scan_order] from first to last. *)
Lemma scan_loop_fold (fs : list node) (a : WaveformAnalyzer) :
  scan_loop fl fs a = fold_left (categorize fl) (scan_order fl fs) a.
Proof. apply fold_left_flat_map. Qed.

(** Running the loop body over [ps] deals [ps] to the ends of the two lists. *)
Lemma fold_categorize (ps : list Path) :
  forall a, exists r f,
    let a' := fold_left (categorize fl) ps a in
    data_path a' = data_path a /\
    real_files a' = real_files a ++ r /\
    fake_files a' = fake_files a ++ f /\
    interleave r f ps.
Proof.
  induction ps as [|p ps IH]; intros a.
  - exists [], []. simpl. rewrite !app_nil_r. repeat split. constructor.
  - destruct (IH (categorize fl a p)) as (r & f & Hd & Hr & Hf & Hi).
    cbn [fold_left]. cbv zeta in *.
    destruct (categorize_cases a p) as [E|E]; rewrite E in *; simpl in *.
    + exists (p :: r), f. rewrite Hd, Hr, Hf, <- app_assoc.
      repeat split. now constructor.
    + exists r, (p :: f). rewrite Hd, Hr, Hf, <- app_assoc.
      repeat split. now constructor.
Qed.

Lemma find_audio_files_returns (fs : list node) (a : WaveformAnalyzer) :
  exists t found, find_audio_files fl fs a = (t, Ok (scan_loop fl fs a, found)).
Proof.
  unfold find_audio_files.
  destruct (real_files (scan_loop fl fs a)), (fake_files (scan_loop fl fs a));
    simpl; eauto.
Qed.

Lemma scanned_eq (fs : list node) (root : string) :
  scanned fl fs root = fold_left (categorize fl) (scan_order fl fs) (init root).
Proof.
  unfold scanned.
  destruct (find_audio_files_returns fs (init root)) as (t & found & ->).
  apply scan_loop_fold.
Qed.

Lemma scanned_interleave (fs : list node) (root : string) :
  data_path (scanned fl fs root) = root /\
  interleave (real_files (scanned fl fs root)) (fake_files (scanned fl fs root))
             (scan_order fl fs).
Proof.
  rewrite scanned_eq.
  destruct (fold_categorize (scan_order fl fs) (init root))
    as (r & f & Hd & Hr & Hf & Hi).
  cbv zeta in *. simpl in *. rewrite Hd, Hr, Hf. now split.
Qed.

(** A path with a real keyword ends in [real_files], whatever came before. *)
Lemma fold_real_match (ps : list Path) (p : Path) :
  forall a,
    In p ps -> real_match fl (data_path a) p = true ->
    In p (real_files (fold_left (categorize fl) ps a)).
Proof.
  induction ps as [|q ps IH]; intros a Hin Hm; [destruct Hin|].
  cbn [fold_left].
  assert (data_path (categorize fl a q) = data_path a) as Hd
      by (destruct (categorize_cases a q) as [-> | ->]; reflexivity).
  destruct Hin as [->|Hin].
  - destruct (fold_categorize ps (categorize fl a p)) as (r & f & _ & -> & _).
    rewrite (categorize_real a p Hm). simpl.
    apply in_or_app. left. apply in_or_app. right. now left.
  - apply IH; [exact Hin | now rewrite Hd].
Qed.

End ScanFacts.

Lemma before_flat_map_same {K B} (g : K -> list B) (ks : list K) (k : K) (x y : B) :
  In k ks -> before x y (g k) -> before x y (flat_map g ks).
Proof.
  induction ks as [|k' ks IH]; simpl; [tauto|].
  intros [->|Hk] Hb; [now apply before_app_l | apply before_app_r; auto].
Qed.

Lemma before_flat_map_cross {K B} (g : K -> list B) (ks : list K)
    (k1 k2 : K) (x y : B) :
  before k1 k2 ks -> In x (g k1) -> In y (g k2) -> before x y (flat_map g ks).
Proof.
  induction ks as [|k ks IH]; simpl; [tauto|].
  intros [[-> Hk2]|Hb] Hx Hy.
  - apply before_app; [exact Hx|]. apply in_flat_map. eauto.
  - apply before_app_r. auto.
Qed.

Lemma any_keyword_true (kws : list string) (filename path_lower : string) :
  any_keyword kws filename path_lower = true <->
  exists kw, In kw kws /\
             (contains kw filename = true \/ contains kw path_lower = true).
Proof.
  unfold any_keyword. rewrite existsb_exists.
  split; intros (kw & Hin & H); exists kw; split; trivial.
  - now apply orb_prop.
  - now apply orb_true_intro.
Qed.

Lemma any_keyword_false (kws : list string) (filename path_lower : string) :
  (forall kw, In kw kws ->
              contains kw filename = false /\ contains kw path_lower = false) ->
  any_keyword kws filename path_lower = false.
Proof.
  intros H. destruct (any_keyword kws filename path_lower) eqn:E; [|reflexivity].
  apply any_keyword_true in E as (kw & Hin & [E|E]);
    destruct (H kw Hin); congruence.
Qed.

(** A keyword absent from the root and from the file name is absent from the
    path of a file that lies directly in the root. *)
Lemma path_str_single (fl : flavour) (root nm kw : string) :
  occurs (sep fl) kw = false ->
  contains kw (lower root) = false ->
  contains kw (lower nm) = false ->
  contains kw (lower (path_str fl root [nm])) = false.
Proof.
  intros Hsep Hroot Hnm. unfold path_str. cbn [fold_left].
  rewrite lower_app. cbn [lower]. rewrite lower_sep.
  now apply contains_app_sep_false.
Qed.

(** ** Classification *)

(** C1.  Every file the scan discovers is appended to exactly one of
    [real_files] and [fake_files]: each iteration of the loop appends the
    path to one list and leaves the other unchanged, the scan of a fresh
    analyzer returns, the two lists together hold the discovered paths and
    nothing else, and no discovered path is in both lists or in neither. *)
Theorem find_audio_files_total (fl : flavour) (fs : list node) (root : string) :
  wf_fs fs = true ->
  let a := scanned fl fs root in
  (exists t found, find_audio_files fl fs (init root) = (t, Ok (a, found))) /\
  (forall b p,
      (real_files (categorize fl b p) = real_files b ++ [p]
       /\ fake_files (categorize fl b p) = fake_files b)
      \/ (real_files (categorize fl b p) = real_files b
          /\ fake_files (categorize fl b p) = fake_files b ++ [p])) /\
  interleave (real_files a) (fake_files a) (scan_order fl fs) /\
  Permutation (real_files a ++ fake_files a) (scan_order fl fs) /\
  (forall p, In p (scan_order fl fs) ->
             (In p (real_files a) /\ ~ In p (fake_files a))
             \/ (~ In p (real_files a) /\ In p (fake_files a))).
Proof.
  intros Hwf a.
  destruct (scanned_interleave fl fs root) as [_ Hi]. fold a in Hi.
  split; [|split; [|split; [|split]]].
  - unfold a, scanned.
    destruct (find_audio_files_returns fl fs (init root)) as (t & found & E).
    rewrite E. simpl. eauto.
  - intros b p. destruct (categorize_cases fl b p) as [-> | ->]; simpl; auto.
  - exact Hi.
  - now apply interleave_perm.
  - intros p Hp. pose proof (scan_order_NoDup fl fs Hwf) as Hnd.
    apply (interleave_in _ _ _ p Hi) in Hp as [Hp|Hp]; [left | right];
      split; trivial; intros Hq;
      now apply (interleave_disjoint _ _ _ p Hi Hnd).
Qed.

Lemma find_audio_files_total_witness :
  wf_fs sample_fs = true /\
  interleave (real_files (scanned Windows sample_fs DATASET_PATH))
             (fake_files (scanned Windows sample_fs DATASET_PATH))
             (scan_order Windows sample_fs).
Proof.
  split; [reflexivity|].
  destruct (find_audio_files_total Windows sample_fs DATASET_PATH eq_refl)
    as (_ & _ & H & _).
  exact H.
Defined.

(** C2.  A file that matches none of the eight keywords, in its lowercased
    name and in its lowercased full path, is appended to the list that is
    shorter at that moment, and to [real_files] when the two are equally
    long.  From two empty lists, two such files in a row go to [real_files]
    and to [fake_files] in that order, also when they are all the scan
    finds. *)
Theorem unmatched_goes_to_shorter (fl : flavour) (a : WaveformAnalyzer) (p : Path) :
  real_match fl (data_path a) p = false ->
  fake_match fl (data_path a) p = false ->
  (List.length (real_files a) <= List.length (fake_files a) ->
   categorize fl a p = append_real a p) /\
  (List.length (fake_files a) < List.length (real_files a) ->
   categorize fl a p = append_fake a p) /\
  (forall q,
      real_match fl (data_path a) q = false ->
      fake_match fl (data_path a) q = false ->
      real_files a = [] -> fake_files a = [] ->
      fold_left (categorize fl) [p; q] a = mkAnalyzer (data_path a) [p] [q]) /\
  (forall q fs,
      real_match fl (data_path a) q = false ->
      fake_match fl (data_path a) q = false ->
      scan_order fl fs = [p; q] ->
      real_files (scanned fl fs (data_path a)) = [p]
      /\ fake_files (scanned fl fs (data_path a)) = [q]).
Proof.
  intros Hr Hf.
  assert (forall q b, data_path b = data_path a ->
            real_match fl (data_path a) q = false ->
            fake_match fl (data_path a) q = false ->
            real_files b = [] -> fake_files b = [] ->
            fold_left (categorize fl) [p; q] b = mkAnalyzer (data_path a) [p] [q])
    as Htwo.
  { intros q [d r f] Hd Hrq Hfq Hre Hfe. simpl in Hd, Hre, Hfe. subst d r f.
    cbn [fold_left].
    rewrite (categorize_unknown fl (mkAnalyzer _ [] []) p Hr Hf).
    change (categorize fl (mkAnalyzer (data_path a) [p] []) q = mkAnalyzer (data_path a) [p] [q]).
    now rewrite (categorize_unknown fl (mkAnalyzer _ [p] []) q Hrq Hfq). }
  split; [|split; [|split]].
  - intros Hle. rewrite (categorize_unknown fl a p Hr Hf).
    apply Nat.leb_le in Hle. now rewrite Hle.
  - intros Hlt. rewrite (categorize_unknown fl a p Hr Hf).
    apply Nat.leb_gt in Hlt. now rewrite Hlt.
  - intros q Hrq Hfq Hre Hfe. now apply Htwo.
  - intros q fs Hrq Hfq Hscan. rewrite scanned_eq, Hscan.
    rewrite (Htwo q (init (data_path a))); auto.
Qed.

Lemma unmatched_goes_to_shorter_witness :
  real_files (scanned Windows unknown_fs DATASET_PATH) = [["a.wav"]] /\
  fake_files (scanned Windows unknown_fs DATASET_PATH) = [["b.wav"]].
Proof.
  apply (unmatched_goes_to_shorter Windows (init DATASET_PATH) ["a.wav"]
           eq_refl eq_refl); reflexivity.
Defined.

(** C3.  In a dataset directory that holds exactly the two files
    [real_sample.wav] and [fake_sample.wav], in either order, and whose own
    path holds none of the keywords, the scan puts [real_sample.wav] in
    [real_files] and [fake_sample.wav] in [fake_files]; both decisions are
    keyword matches against the lowercased name and full path. *)
Theorem real_fake_samples (fl : flavour) (root : string) (fs : list node) :
  no_keyword root ->
  Permutation samples_fs fs ->
  real_files (scanned fl fs root) = [["real_sample.wav"]] /\
  fake_files (scanned fl fs root) = [["fake_sample.wav"]] /\
  real_match fl root ["real_sample.wav"] = true /\
  real_match fl root ["fake_sample.wav"] = false /\
  fake_match fl root ["fake_sample.wav"] = true.
Proof.
  intros Hroot Hperm.
  assert (real_match fl root ["real_sample.wav"] = true) as Hreal.
  { apply any_keyword_true. exists "real"%string. split; [now left | now left]. }
  assert (real_match fl root ["fake_sample.wav"] = false) as Hnot.
  { apply any_keyword_false. intros kw Hkw. split.
    - simpl in Hkw. destruct Hkw as [<-|[<-|[<-|[<-|[]]]]]; reflexivity.
    - apply path_str_single.
      + simpl in Hkw. destruct Hkw as [<-|[<-|[<-|[<-|[]]]]]; now destruct fl.
      + apply Hroot. apply in_or_app. now left.
      + simpl in Hkw. destruct Hkw as [<-|[<-|[<-|[<-|[]]]]]; reflexivity. }
  assert (fake_match fl root ["fake_sample.wav"] = true) as Hfake.
  { apply any_keyword_true. exists "fake"%string. split; [now left | now left]. }
  assert (forall a, data_path a = root ->
            categorize fl a ["real_sample.wav"] = append_real a ["real_sample.wav"])
    as Sreal by (intros a <-; now apply categorize_real).
  assert (forall a, data_path a = root ->
            categorize fl a ["fake_sample.wav"] = append_fake a ["fake_sample.wav"])
    as Sfake by (intros a <-; now apply categorize_fake).
  rewrite scanned_eq.
  apply Permutation_length_2_inv in Hperm as [-> | ->].
  - replace (scan_order fl [File "real_sample.wav"; File "fake_sample.wav"])
      with [["real_sample.wav"]; ["fake_sample.wav"]] by now destruct fl.
    cbn [fold_left]. rewrite Sreal, Sfake by reflexivity. simpl. auto.
  - replace (scan_order fl [File "fake_sample.wav"; File "real_sample.wav"])
      with [["fake_sample.wav"]; ["real_sample.wav"]] by now destruct fl.
    cbn [fold_left]. rewrite Sfake, Sreal by reflexivity. simpl. auto.
Qed.

Lemma DATASET_PATH_no_keyword : no_keyword DATASET_PATH.
Proof.
  intros kw Hkw. simpl in Hkw.
  destruct Hkw as [<-|[<-|[<-|[<-|[<-|[<-|[<-|[<-|[]]]]]]]]]; reflexivity.
Defined.

Lemma real_fake_samples_witness :
  real_files (scanned Windows samples_fs DATASET_PATH) = [["real_sample.wav"]] /\
  fake_files (scanned Windows samples_fs DATASET_PATH) = [["fake_sample.wav"]].
Proof.
  destruct (real_fake_samples Windows DATASET_PATH samples_fs
              DATASET_PATH_no_keyword (Permutation_refl _)) as (Hr & Hf & _).
  split; [exact Hr | exact Hf].
Defined.

(** C9.  A file whose lowercased name or full path holds a real keyword and
    a fake keyword is assigned to [real_files]: the loop body appends it
    there in any state of the analyzer, so after the scan it is in
    [real_files], and in a well-formed directory it is not in
    [fake_files]. *)
Theorem real_keyword_priority (fl : flavour) (fs : list node) (root : string)
    (p : Path) :
  (exists kw, In kw real_keywords /\
              (contains kw (lower (name p)) = true
               \/ contains kw (lower (path_str fl root p)) = true)) ->
  (exists kw, In kw fake_keywords /\
              (contains kw (lower (name p)) = true
               \/ contains kw (lower (path_str fl root p)) = true)) ->
  (forall a, data_path a = root -> categorize fl a p = append_real a p) /\
  (In p (scan_order fl fs) ->
   In p (real_files (scanned fl fs root))
   /\ (wf_fs fs = true -> ~ In p (fake_files (scanned fl fs root)))).
Proof.
  intros Hreal _.
  assert (real_match fl root p = true) as Hm by now apply any_keyword_true.
  split.
  - intros a <-. now apply categorize_real.
  - intros Hin.
    assert (In p (real_files (scanned fl fs root))) as Hp.
    { rewrite scanned_eq. now apply fold_real_match. }
    split; [exact Hp|]. intros Hwf Hq.
    destruct (scanned_interleave fl fs root) as [_ Hi].
    exact (interleave_disjoint _ _ _ p Hi (scan_order_NoDup fl fs Hwf) Hp Hq).
Qed.

Lemma real_keyword_priority_witness :
  categorize Posix (init "/data") ["real_vs_fake.wav"]
  = append_real (init "/data") ["real_vs_fake.wav"].
Proof.
  assert (exists kw, In kw real_keywords /\
            (contains kw (lower (name ["real_vs_fake.wav"])) = true
             \/ contains kw (lower (path_str Posix "/data" ["real_vs_fake.wav"])) = true))
    as Hreal.
  { exists "real"%string. split; [left; reflexivity | left; vm_compute; reflexivity]. }
  assert (exists kw, In kw fake_keywords /\
            (contains kw (lower (name ["real_vs_fake.wav"])) = true
             \/ contains kw (lower (path_str Posix "/data" ["real_vs_fake.wav"])) = true))
    as Hfake.
  { exists "fake"%string. split; [left; reflexivity | left; vm_compute; reflexivity]. }
  destruct (real_keyword_priority Posix [File "real_vs_fake.wav"] "/data"
              ["real_vs_fake.wav"] Hreal Hfake) as [H _].
  apply H. reflexivity.
Defined.

(** ** Order of the two lists *)

(** C8, as stated, fails: with [fake_b.mp3] listed before [fake_a.wav] the
    walk meets the [mp3] file first, yet the [wav] pass runs first and
    [fake_files] holds [fake_a.wav] before [fake_b.mp3]. *)
Lemma traversal_order_counterexample :
  ~ (follows_order (walk mixed_fs)
                   (real_files (scanned Windows mixed_fs DATASET_PATH))
     /\ follows_order (walk mixed_fs)
                      (fake_files (scanned Windows mixed_fs DATASET_PATH))).
Proof.
  assert (fake_files (scanned Windows mixed_fs DATASET_PATH)
          = [["fake_a.wav"]; ["fake_b.mp3"]]) as Efake
      by (vm_compute; reflexivity).
  assert (walk mixed_fs = [["fake_b.mp3"]; ["fake_a.wav"]]) as Ewalk
      by (vm_compute; reflexivity).
  rewrite Efake, Ewalk. intros [_ H].
  specialize (H ["fake_b.mp3"] ["fake_a.wav"]).
  assert (before ["fake_b.mp3"] ["fake_a.wav"]
                 [["fake_a.wav"]; ["fake_b.mp3"]]) as Hb.
  { apply H.
    - left. split; [reflexivity | left; reflexivity].
    - right. left. reflexivity.
    - left. reflexivity. }
  destruct Hb as [[E _]|[[_ []]|[]]]. discriminate E.
Qed.

(** C8, amended.  The two lists are filled in the order of the scan, which
    is one full walk per extension pattern ([*.wav], [*.mp3], [*.flac],
    [*.m4a], in that order): two members of one list stand in it as the scan
    processed them; two paths matching the same pattern are processed in the
    order the walk meets them; and a path matching an earlier pattern is
    processed before any path matching a later one. *)
Theorem scan_order_preserved (fl : flavour) (fs : list node) (root : string) :
  wf_fs fs = true ->
  let a := scanned fl fs root in
  follows_order (scan_order fl fs) (real_files a) /\
  follows_order (scan_order fl fs) (fake_files a) /\
  (forall ext p q,
      In ext audio_extensions ->
      matches fl ext (name p) = true -> matches fl ext (name q) = true ->
      before p q (walk fs) -> before p q (scan_order fl fs)) /\
  (forall e1 e2 p q,
      before e1 e2 audio_extensions ->
      In p (walk fs) -> In q (walk fs) ->
      matches fl e1 (name p) = true -> matches fl e2 (name q) = true ->
      before p q (scan_order fl fs)).
Proof.
  intros Hwf a.
  pose proof (scan_order_NoDup fl fs Hwf) as Hnd.
  destruct (scanned_interleave fl fs root) as [_ Hi]. fold a in Hi.
  destruct (interleave_subseq _ _ _ Hi) as [Hr Hf].
  split; [|split; [|split]].
  - now apply subseq_follows_order.
  - now apply subseq_follows_order.
  - intros ext p q Hext Hp Hq Hb. rewrite scan_order_filter.
    apply (before_flat_map_same _ _ ext); [exact Hext|].
    now apply before_filter.
  - intros e1 e2 p q He Hp Hq Mp Mq. rewrite scan_order_filter.
    apply (before_flat_map_cross _ _ e1 e2); [exact He | |];
      apply filter_In; auto.
Qed.

Lemma scan_order_preserved_witness :
  follows_order (scan_order Windows mixed_fs)
                (fake_files (scanned Windows mixed_fs DATASET_PATH)).
Proof.
  destruct (scan_order_preserved Windows mixed_fs DATASET_PATH eq_refl)
    as (_ & H & _).
  exact H.
Defined.

(** ** Rendering *)

Section RenderFacts.

Context {sample : Type}.
Variable w : World sample.

Lemma bind_ret_l {X Y} (x : X) (k : X -> M Y) : bind ([], Ok x) k = k x.
Proof. simpl. now destruct (k x). Qed.

Lemma bind_ok_inv {X Y} (m : M X) (k : X -> M Y) (t : list event) (y : Y) :
  bind m k = (t, Ok y) ->
  exists t1 x t2, m = (t1, Ok x) /\ k x = (t2, Ok y) /\ t = t1 ++ t2.
Proof.
  destruct m as [t1 [x|e]]; simpl; [|discriminate].
  destruct (k x) as [t2 r] eqn:E. intros [= <- ->]. now exists t1, x, t2.
Qed.

Lemma resample_to_ok (target_sr : Z) (audio audio' : list sample) (sr : Z)
    (t : list event) :
  resample_to w target_sr audio sr = (t, Ok audio') ->
  (sr = target_sr -> audio' = audio)
  /\ (sr <> target_sr -> w_resample w audio sr target_sr = Ok audio').
Proof.
  unfold resample_to, call, ret.
  destruct (Z.eqb_spec sr target_sr) as [E|N]; intros [= <- H]; split;
    try contradiction; intros _; congruence.
Qed.

(** A guarded block whose handler only prints ends normally. *)
Lemma try_except_print (body : M unit) (msg : exn -> message) :
  try_except body (fun e => print (msg e))
  = match body with
    | (t, Ok _) => (t, Ok tt)
    | (t, Raise e) => (t ++ [Print (msg e)], Ok tt)
    end.
Proof. destruct body as [t [[]|e]]; reflexivity. Qed.

Lemma try_except_returns (body : M unit) (msg : exn -> message) :
  outcome (try_except body (fun e => print (msg e))) = Ok tt.
Proof. rewrite try_except_print. now destruct body as [t [[]|e]]. Qed.

Lemma slice_to_length {A} (k : Z) (l : list A) :
  (0 <= k)%Z ->
  List.length (slice_to k l) = Nat.min (Z.to_nat k) (List.length l).
Proof.
  intros Hk. unfold slice_to. apply Z.leb_le in Hk. rewrite Hk.
  apply length_firstn.
Qed.

(** With a rate that is not negative, the five-second window and its time
    axis have the same length. *)
Lemma first5_lengths (audio : list sample) (sr : Z) :
  (0 <= sr)%Z ->
  let max_samples := Z.min (Z.of_nat (List.length audio)) (5 * sr) in
  List.length (slice_to max_samples audio) = arange_len max_samples.
Proof.
  intros Hsr max_samples. unfold arange_len.
  rewrite slice_to_length by (unfold max_samples; lia).
  unfold max_samples. lia.
Qed.

Lemma plot_same (ax : axis) (n : nat) : plot ax n n = ([Plot ax n], Ok tt).
Proof. unfold plot. now rewrite Nat.eqb_refl. Qed.

Lemma plot_mismatch (ax : axis) (n m : nat) :
  n <> m -> plot ax n m = ([], Raise (Exception "ValueError")).
Proof. intros H. unfold plot. apply Nat.eqb_neq in H. now rewrite H. Qed.

Lemma plot_first5_spec (ax : axis) (err : exn -> message) (example : Path) :
  plot_first5 w ax err example
  = match w_load w example with
    | Ok (audio, sr) =>
        let max_samples := Z.min (Z.of_nat (List.length audio)) (5 * sr) in
        if (arange_len max_samples =? List.length (slice_to max_samples audio))%nat
        then ([Plot ax (List.length (slice_to max_samples audio))], Ok tt)
        else ([Print (err (Exception "ValueError"))], Ok tt)
    | Raise e => ([Print (err e)], Ok tt)
    end.
Proof.
  unfold plot_first5, load, call, plot.
  destruct (w_load w example) as [[audio sr]|e]; [|reflexivity].
  cbv zeta. simpl. now destruct (_ =? _)%nat.
Qed.

Lemma plot_combined_spec (real_example fake_example : Path) :
  plot_combined w real_example fake_example
  = match w_load w real_example with
    | Ok (audio_real, _) =>
        match w_load w fake_example with
        | Ok (audio_fake, _) =>
            ([Plot (Ax 0 0) (List.length audio_real);
              Plot (Ax 0 0) (List.length audio_fake)], Ok tt)
        | Raise e => ([Print (MsgErrCombined e)], Ok tt)
        end
    | Raise e => ([Print (MsgErrCombined e)], Ok tt)
    end.
Proof.
  unfold plot_combined, load, call.
  destruct (w_load w real_example) as [[ar sr]|e]; [|reflexivity].
  destruct (w_load w fake_example) as [[af sf]|e]; [|reflexivity].
  simpl. now rewrite !plot_same.
Qed.

Lemma plot_first5_returns (ax : axis) (err : exn -> message) (example : Path) :
  outcome (plot_first5 w ax err example) = Ok tt.
Proof. apply try_except_returns. Qed.

Lemma plot_combined_returns (real_example fake_example : Path) :
  outcome (plot_combined w real_example fake_example) = Ok tt.
Proof. apply try_except_returns. Qed.

Lemma prepare_signals_silent (r f : Path) : trace (prepare_signals w r f) = [].
Proof.
  unfold prepare_signals, load, call, resample_to.
  destruct (w_load w r) as [[y_r sr_r]|e]; [|reflexivity].
  destruct (w_load w f) as [[y_f sr_f]|e]; [|reflexivity].
  simpl. destruct (sr_r =? _)%Z; simpl.
  - destruct (sr_f =? _)%Z; simpl; [reflexivity|].
    now destruct (w_resample w y_f _ _).
  - destruct (w_resample w y_r _ _); simpl; [|reflexivity].
    destruct (sr_f =? _)%Z; simpl; [reflexivity|].
    now destruct (w_resample w y_f _ _).
Qed.

End RenderFacts.

Section Comparison.

Context {sample : Type}.
Variable w : World sample.

(** The comparison figure when the directory, the figure and the save
    succeed: the three guarded blocks contribute their events and nothing
    else, and the save follows. *)
Lemma create_waveform_comparison_spec (a : WaveformAnalyzer) :
  w_mkdir w = None -> w_subplots w 2 2 = None -> w_savefig w waveform_pdf = None ->
  create_waveform_comparison w a
  = ([Print MsgCreating; Mkdir output_dir; Subplots 2 2]
       ++ trace (match hd_error (real_files a), hd_error (fake_files a) with
                 | Some r, Some f => plot_combined w r f
                 | _, _ => ret tt
                 end)
       ++ trace (match hd_error (real_files a) with
                 | Some r => plot_first5 w (Ax 0 1) MsgErrReal r
                 | None => ret tt
                 end)
       ++ trace (match hd_error (fake_files a) with
                 | Some f => plot_first5 w (Ax 1 0) MsgErrFake f
                 | None => ret tt
                 end)
       ++ [Text (Ax 1 1) (summary_text (hd_error (real_files a))
                                       (hd_error (fake_files a)));
           Savefig waveform_pdf; Close; Print (MsgWaveformSaved waveform_pdf)],
     Ok tt).
Proof.
  intros Hmk Hsub Hsave.
  unfold create_waveform_comparison, mkdir, subplots, savefig, guarded, print.
  rewrite Hmk, Hsub, Hsave. cbv zeta.
  set (b1 := match hd_error (real_files a), hd_error (fake_files a) with
             | Some r, Some f => plot_combined w r f
             | _, _ => ret tt
             end).
  set (b2 := match hd_error (real_files a) with
             | Some r => plot_first5 w (Ax 0 1) MsgErrReal r
             | None => ret tt
             end).
  set (b3 := match hd_error (fake_files a) with
             | Some f => plot_first5 w (Ax 1 0) MsgErrFake f
             | None => ret tt
             end).
  assert (outcome b1 = Ok tt) as H1.
  { unfold b1. destruct (hd_error (real_files a)), (hd_error (fake_files a));
      try reflexivity. apply plot_combined_returns. }
  assert (outcome b2 = Ok tt) as H2.
  { unfold b2. destruct (hd_error (real_files a)); [|reflexivity].
    apply plot_first5_returns. }
  assert (outcome b3 = Ok tt) as H3.
  { unfold b3. destruct (hd_error (fake_files a)); [|reflexivity].
    apply plot_first5_returns. }
  clearbody b1 b2 b3.
  destruct b1 as [t1 r1], b2 as [t2 r2], b3 as [t3 r3].
  simpl in H1, H2, H3. subst r1 r2 r3.
  reflexivity.
Qed.

End Comparison.

Section Detailed.

Context {sample : Type}.
Variable w : World sample.

(** The detailed figure once the directory and the figure exist: whatever
    the guarded block does, the function returns normally; a failure of the
    block is logged after the events the block performed. *)
Lemma create_detailed_spec (a : WaveformAnalyzer) (r f : Path) (rs fs' : list Path) :
  real_files a = r :: rs -> fake_files a = f :: fs' ->
  w_mkdir w = None -> w_subplots w 3 1 = None ->
  create_detailed_waveform_analysis w a
  = match detailed_body w r f with
    | (t, Ok _) => ([Mkdir output_dir; Subplots 3 1] ++ t, Ok tt)
    | (t, Raise e) =>
        ([Mkdir output_dir; Subplots 3 1] ++ t ++ [Print (MsgErrDetailed e)], Ok tt)
    end.
Proof.
  intros Hr Hf Hmk Hsub.
  unfold create_detailed_waveform_analysis, mkdir, subplots, guarded.
  rewrite Hr, Hf, Hmk, Hsub, try_except_print.
  now destruct (detailed_body w r f) as [t [[]|e]].
Qed.

Lemma create_detailed_skips (a : WaveformAnalyzer) :
  real_files a = [] \/ fake_files a = [] ->
  create_detailed_waveform_analysis w a = ([Print MsgSkipping], Ok tt).
Proof.
  unfold create_detailed_waveform_analysis.
  intros [-> | ->]; [reflexivity|]. now destruct (real_files a).
Qed.

Lemma detailed_body_spec (r f : Path) :
  detailed_body w r f
  = match prepare_signals w r f with
    | (t, Ok (real_audio, fake_audio, target_sr)) =>
        (t ++ trace (render_detailed w real_audio fake_audio target_sr),
         outcome (render_detailed w real_audio fake_audio target_sr))
    | (t, Raise e) => (t, Raise e)
    end.
Proof.
  unfold detailed_body.
  destruct (prepare_signals w r f) as [t [[[ra fa] sr]|e]]; [|reflexivity].
  simpl. now destruct (render_detailed w ra fa sr).
Qed.

(** Signals that differ in length, or that are shorter than the two-second
    zoom window, make a plotting call fail before anything is saved. *)
Lemma render_detailed_misaligned (real_audio fake_audio : list sample) (target_sr : Z) :
  List.length real_audio <> List.length fake_audio
  \/ (Z.of_nat (List.length real_audio) < 2 * target_sr)%Z
  \/ (Z.of_nat (List.length fake_audio) < 2 * target_sr)%Z ->
  exists t,
    render_detailed w real_audio fake_audio target_sr
    = (t, Raise (Exception "ValueError"))
    /\ Forall (fun ev => exists ax n, ev = Plot ax n) t.
Proof.
  intros H. unfold render_detailed. cbv zeta.
  rewrite plot_same. cbn [bind].
  destruct (Nat.eq_dec (List.length real_audio) (List.length fake_audio)) as [E|NE].
  - rewrite <- E in *. rewrite plot_same. cbn [bind].
    assert (Z.of_nat (List.length real_audio) < 2 * target_sr)%Z as Hshort
        by (destruct H as [H|[H|H]]; [contradiction | exact H | exact H]).
    rewrite plot_mismatch.
    + eexists. split; [reflexivity|]. repeat constructor; eauto.
    + rewrite slice_to_length by lia. unfold arange_len. lia.
  - rewrite (plot_mismatch _ _ _ NE).
    eexists. split; [reflexivity|]. repeat constructor; eauto.
Qed.

(** Signals of one length that cover the zoom window are drawn and saved. *)
Lemma render_detailed_aligned (real_audio fake_audio : list sample) (target_sr : Z) :
  List.length real_audio = List.length fake_audio ->
  (0 <= target_sr)%Z ->
  (2 * target_sr <= Z.of_nat (List.length real_audio))%Z ->
  w_hist w real_audio = None -> w_hist w fake_audio = None ->
  w_savefig w detailed_pdf = None ->
  render_detailed w real_audio fake_audio target_sr
  = ([Plot (Ax 0 0) (List.length real_audio);
      Plot (Ax 0 0) (List.length fake_audio);
      Plot (Ax 1 0) (Z.to_nat (2 * target_sr));
      Plot (Ax 1 0) (Z.to_nat (2 * target_sr));
      Hist (Ax 2 0) (List.length real_audio);
      Hist (Ax 2 0) (List.length fake_audio);
      Savefig detailed_pdf; Close; Print (MsgDetailedSaved detailed_pdf)],
     Ok tt).
Proof.
  intros E Hsr Hlong Hh1 Hh2 Hsave.
  unfold render_detailed, hist, savefig, guarded. cbv zeta.
  rewrite Hh1, Hh2, Hsave.
  assert (List.length (slice_to (2 * target_sr) real_audio)
          = arange_len (2 * target_sr)) as L1
      by (rewrite slice_to_length by lia; unfold arange_len; lia).
  assert (List.length (slice_to (2 * target_sr) fake_audio)
          = arange_len (2 * target_sr)) as L2
      by (rewrite slice_to_length by lia; unfold arange_len; lia).
  rewrite L1, L2, <- E, !plot_same. reflexivity.
Qed.

End Detailed.

(** ** The pipeline *)

(** C4.  When every [rglob] comes back empty, [find_audio_files] prints the
    "no audio files" message and returns [False] with both lists empty;
    [main] then returns at once: its whole output is the banner and the
    scan's four messages, no directory is made, nothing is drawn and no PDF
    is saved. *)
Theorem no_audio_halts {sample : Type} (w : World sample) (fl : flavour)
    (fs : list node) :
  (forall ext, In ext audio_extensions -> rglob fl ext fs = []) ->
  (forall root,
      find_audio_files fl fs (init root)
      = ([Print MsgSearching; Print (MsgFoundReal 0); Print (MsgFoundFake 0);
          Print MsgNoAudio],
         Ok (init root, false))) /\
  main w fl fs
  = ([Print MsgBanner; Print MsgSearching; Print (MsgFoundReal 0);
      Print (MsgFoundFake 0); Print MsgNoAudio],
     Ok tt) /\
  (forall pdf, ~ saved pdf (trace (main w fl fs))) /\
  (forall ax, ~ populated ax (trace (main w fl fs))) /\
  writes_nothing (trace (main w fl fs)).
Proof.
  intros Hnone.
  assert (forall a, scan_loop fl fs a = a) as Hloop.
  { intros a. unfold scan_loop, audio_extensions. cbn [fold_left].
    rewrite !Hnone by (simpl; auto). reflexivity. }
  assert (forall root,
             find_audio_files fl fs (init root)
             = ([Print MsgSearching; Print (MsgFoundReal 0); Print (MsgFoundFake 0);
                 Print MsgNoAudio],
                Ok (init root, false))) as Hfind.
  { intros root. unfold find_audio_files. now rewrite Hloop. }
  assert (main w fl fs
          = ([Print MsgBanner; Print MsgSearching; Print (MsgFoundReal 0);
              Print (MsgFoundFake 0); Print MsgNoAudio],
             Ok tt)) as Hmain.
  { unfold main. cbv zeta. now rewrite Hfind. }
  split; [exact Hfind|]. split; [exact Hmain|]. rewrite Hmain.
  split; [|split].
  - intros pdf Hin. unfold saved, trace in Hin. simpl in Hin.
    repeat (destruct Hin as [Hin|Hin]; [discriminate Hin|]). exact Hin.
  - intros ax [n Hin]. unfold trace in Hin. simpl in Hin.
    repeat (destruct Hin as [Hin|Hin]; [discriminate Hin|]). exact Hin.
  - intros ev Hin. unfold trace in Hin. simpl in Hin.
    destruct Hin as [<-|[<-|[<-|[<-|[<-|[]]]]]]; exact I.
Qed.

Lemma no_audio_halts_witness :
  main (studio 10 10 3 3 None) Windows notes_fs
  = ([Print MsgBanner; Print MsgSearching; Print (MsgFoundReal 0);
      Print (MsgFoundFake 0); Print MsgNoAudio],
     Ok tt).
Proof.
  assert (forall ext, In ext audio_extensions -> rglob Windows ext notes_fs = [])
    as Hnone.
  { intros ext Hext. simpl in Hext.
    destruct Hext as [<-|[<-|[<-|[<-|[]]]]]; vm_compute; reflexivity. }
  destruct (no_audio_halts (studio 10 10 3 3 None) Windows notes_fs Hnone)
    as (_ & H & _).
  exact H.
Defined.

(** C5, as stated, fails: with one file of each kind the function runs, and
    when the output directory cannot be created the exception of [mkdir]
    leaves the function; it is neither caught nor logged. *)
Lemma detailed_uncaught_counterexample :
  real_files paired <> [] /\ fake_files paired <> [] /\
  create_detailed_waveform_analysis
    (studio 10 10 3 3 (Some (Exception "PermissionError"))) paired
  = ([], Raise (Exception "PermissionError")).
Proof.
  split; [discriminate|]. split; [discriminate|]. vm_compute. reflexivity.
Qed.

(** C5, amended.  [create_detailed_waveform_analysis] does its work only
    when both lists are non-empty: if either is empty it prints the skip
    message and returns without creating or saving anything.  When it runs
    and the output directory and the figure have been created, every
    exception raised by the statements of its [try] block (decoding,
    resampling, plotting, saving) is caught and logged, and the function
    returns normally.  An exception of the directory creation or of the
    figure creation, which precede the [try] block, leaves the function. *)
Theorem detailed_guard {sample : Type} (w : World sample) (a : WaveformAnalyzer) :
  (real_files a = [] \/ fake_files a = [] ->
   create_detailed_waveform_analysis w a = ([Print MsgSkipping], Ok tt)
   /\ writes_nothing (trace (create_detailed_waveform_analysis w a))) /\
  (forall r rs f fs',
      real_files a = r :: rs -> fake_files a = f :: fs' ->
      w_mkdir w = None -> w_subplots w 3 1 = None ->
      outcome (create_detailed_waveform_analysis w a) = Ok tt
      /\ forall t e,
          detailed_body w r f = (t, Raise e) ->
          create_detailed_waveform_analysis w a
          = ([Mkdir output_dir; Subplots 3 1] ++ t ++ [Print (MsgErrDetailed e)],
             Ok tt)) /\
  (forall r rs f fs' e,
      real_files a = r :: rs -> fake_files a = f :: fs' ->
      (w_mkdir w = Some e ->
       create_detailed_waveform_analysis w a = ([], Raise e))
      /\ (w_mkdir w = None -> w_subplots w 3 1 = Some e ->
          create_detailed_waveform_analysis w a = ([Mkdir output_dir], Raise e))).
Proof.
  split; [|split].
  - intros Hempty. rewrite (create_detailed_skips w a Hempty).
    split; [reflexivity|]. intros ev [<-|[]]. exact I.
  - intros r rs f fs' Hr Hf Hmk Hsub.
    rewrite (create_detailed_spec w a r f rs fs' Hr Hf Hmk Hsub).
    split.
    + now destruct (detailed_body w r f) as [t [[]|e]].
    + intros t e ->. reflexivity.
  - intros r rs f fs' e Hr Hf.
    unfold create_detailed_waveform_analysis, mkdir, subplots, guarded.
    rewrite Hr, Hf. split.
    + now intros ->.
    + now intros -> ->.
Qed.

Lemma detailed_guard_witness :
  create_detailed_waveform_analysis (studio 10 10 3 3 None) real_only
  = ([Print MsgSkipping], Ok tt)
  /\ create_detailed_waveform_analysis (studio 10 12 3 3 None) paired
     = ([Mkdir output_dir; Subplots 3 1] ++ [Plot (Ax 0 0) 10]
          ++ [Print (MsgErrDetailed (Exception "ValueError"))],
        Ok tt).
Proof.
  split.
  - destruct (detailed_guard (studio 10 10 3 3 None) real_only) as (H & _).
    apply H. right. reflexivity.
  - destruct (detailed_guard (studio 10 12 3 3 None) paired) as (_ & H & _).
    destruct (H ["real_sample.wav"] [] ["fake_sample.wav"] []
                eq_refl eq_refl eq_refl eq_refl) as [_ Hlog].
    apply Hlog. vm_compute. reflexivity.
Defined.




(** C7.  With real files only, [create_waveform_comparison] (its directory,
    figure and save succeeding) returns normally and saves
    [waveform_analysis.pdf]; nothing is drawn on the combined panel or on
    the fake panel; the real panel holds the first five seconds of the
    first real file when it decodes, and when it does not the error is
    logged, the panel stays blank and the PDF is saved all the same;
    [create_detailed_waveform_analysis] only prints that it skips.  For any
    two lists, whichever of the three guarded blocks fail, the function
    returns normally and the save takes place; each block is guarded on its
    own: a block that fails logs its own error, and what the other two
    blocks draw or log does not depend on it. *)
Theorem real_only_comparison {sample : Type} (w : World sample)
    (a : WaveformAnalyzer) (r : Path) (rs : list Path) :
  real_files a = r :: rs -> fake_files a = [] ->
  w_mkdir w = None -> w_subplots w 2 2 = None -> w_savefig w waveform_pdf = None ->
  let t := trace (create_waveform_comparison w a) in
  outcome (create_waveform_comparison w a) = Ok tt /\
  saved waveform_pdf t /\
  ~ populated (Ax 0 0) t /\
  ~ populated (Ax 1 0) t /\
  (forall audio sr,
      w_load w r = Ok (audio, sr) -> (0 <= sr)%Z ->
      In (Plot (Ax 0 1) (Z.to_nat (Z.min (Z.of_nat (List.length audio)) (5 * sr)))) t) /\
  (forall e,
      w_load w r = Raise e ->
      In (Print (MsgErrReal e)) t /\ ~ populated (Ax 0 1) t) /\
  create_detailed_waveform_analysis w a = ([Print MsgSkipping], Ok tt) /\
  (forall b,
      outcome (create_waveform_comparison w b) = Ok tt
      /\ saved waveform_pdf (trace (create_waveform_comparison w b))) /\
  (forall b,
      create_waveform_comparison w b
      = ([Print MsgCreating; Mkdir output_dir; Subplots 2 2]
           ++ match hd_error (real_files b), hd_error (fake_files b) with
              | Some r', Some f' =>
                  match w_load w r' with
                  | Ok (audio_real, _) =>
                      match w_load w f' with
                      | Ok (audio_fake, _) =>
                          [Plot (Ax 0 0) (List.length audio_real);
                           Plot (Ax 0 0) (List.length audio_fake)]
                      | Raise e => [Print (MsgErrCombined e)]
                      end
                  | Raise e => [Print (MsgErrCombined e)]
                  end
              | _, _ => []
              end
           ++ match hd_error (real_files b) with
              | Some r' =>
                  match w_load w r' with
                  | Ok (audio, sr) =>
                      let max_samples :=
                        Z.min (Z.of_nat (List.length audio)) (5 * sr) in
                      if (arange_len max_samples
                          =? List.length (slice_to max_samples audio))%nat
                      then [Plot (Ax 0 1)
                                 (List.length (slice_to max_samples audio))]
                      else [Print (MsgErrReal (Exception "ValueError"))]
                  | Raise e => [Print (MsgErrReal e)]
                  end
              | None => []
              end
           ++ match hd_error (fake_files b) with
              | Some f' =>
                  match w_load w f' with
                  | Ok (audio, sr) =>
                      let max_samples :=
                        Z.min (Z.of_nat (List.length audio)) (5 * sr) in
                      if (arange_len max_samples
                          =? List.length (slice_to max_samples audio))%nat
                      then [Plot (Ax 1 0)
                                 (List.length (slice_to max_samples audio))]
                      else [Print (MsgErrFake (Exception "ValueError"))]
                  | Raise e => [Print (MsgErrFake e)]
                  end
              | None => []
              end
           ++ [Text (Ax 1 1) (summary_text (hd_error (real_files b))
                                           (hd_error (fake_files b)));
               Savefig waveform_pdf; Close;
               Print (MsgWaveformSaved waveform_pdf)],
         Ok tt)).
Proof.
  intros Hr Hf Hmk Hsub Hsave t.
  assert (forall b,
             outcome (create_waveform_comparison w b) = Ok tt
             /\ saved waveform_pdf (trace (create_waveform_comparison w b)))
    as Hany.
  { intros b. rewrite (create_waveform_comparison_spec w b Hmk Hsub Hsave).
    split; [reflexivity|]. unfold saved, trace. cbn [fst].
    apply in_or_app. right. apply in_or_app. right. apply in_or_app. right.
    apply in_or_app. right. right. left. reflexivity. }
  assert (t = [Print MsgCreating; Mkdir output_dir; Subplots 2 2]
                ++ trace (plot_first5 w (Ax 0 1) MsgErrReal r)
                ++ [Text (Ax 1 1) (summary_text (Some r) None);
                    Savefig waveform_pdf; Close;
                    Print (MsgWaveformSaved waveform_pdf)]) as Ht.
  { unfold t. rewrite (create_waveform_comparison_spec w a Hmk Hsub Hsave).
    rewrite Hr, Hf. reflexivity. }
  destruct (Hany a) as [Hok Hsaved].
  split; [exact Hok|]. split; [exact Hsaved|].
  rewrite Ht, plot_first5_spec. clear Ht Hok Hsaved t.
  split; [|split; [|split; [|split; [|split]]]].
  - intros [n Hin].
    destruct (w_load w r) as [[audio sr]|e]; [cbv zeta in Hin;
      destruct (_ =? _)%nat|]; simpl in Hin;
      repeat (destruct Hin as [Hin|Hin]; [discriminate Hin|]); exact Hin.
  - intros [n Hin].
    destruct (w_load w r) as [[audio sr]|e]; [cbv zeta in Hin;
      destruct (_ =? _)%nat|]; simpl in Hin;
      repeat (destruct Hin as [Hin|Hin]; [discriminate Hin|]); exact Hin.
  - intros audio sr -> Hsr. cbv zeta.
    rewrite (first5_lengths audio sr Hsr), Nat.eqb_refl.
    unfold arange_len. simpl. auto.
  - intros e ->. split; [simpl; auto|].
    intros [n Hin]. simpl in Hin.
    repeat (destruct Hin as [Hin|Hin]; [discriminate Hin|]); exact Hin.
  - apply create_detailed_skips. now right.
  - split; [exact Hany|]. intros b.
    rewrite (create_waveform_comparison_spec w b Hmk Hsub Hsave).
    f_equal. f_equal.
    assert (forall ax err p,
               trace (plot_first5 w ax err p)
               = match w_load w p with
                 | Ok (audio, sr) =>
                     let max_samples :=
                       Z.min (Z.of_nat (List.length audio)) (5 * sr) in
                     if (arange_len max_samples
                         =? List.length (slice_to max_samples audio))%nat
                     then [Plot ax (List.length (slice_to max_samples audio))]
                     else [Print (err (Exception "ValueError"))]
                 | Raise e => [Print (err e)]
                 end) as Hfirst5.
    { intros ax err p. rewrite plot_first5_spec.
      destruct (w_load w p) as [[audio sr]|e]; [cbv zeta;
        destruct (_ =? _)%nat|]; reflexivity. }
    f_equal; [|f_equal; [|f_equal]].
    + destruct (hd_error (real_files b)) as [r'|],
        (hd_error (fake_files b)) as [f'|]; try reflexivity.
      rewrite plot_combined_spec.
      destruct (w_load w r') as [[ar sr]|e]; [|reflexivity].
      destruct (w_load w f') as [[af sf]|e]; reflexivity.
    + destruct (hd_error (real_files b)) as [r'|]; [apply Hfirst5 | reflexivity].
    + destruct (hd_error (fake_files b)) as [f'|]; [apply Hfirst5 | reflexivity].
Qed.

Lemma real_only_comparison_witness :
  saved waveform_pdf
        (trace (create_waveform_comparison (studio 20 10 6 3 None) real_only))
  /\ In (Plot (Ax 0 1) 20)
        (trace (create_waveform_comparison (studio 20 10 6 3 None) real_only)).
Proof.
  destruct (real_only_comparison (studio 20 10 6 3 None) real_only
              ["real_sample.wav"] [] eq_refl eq_refl eq_refl eq_refl eq_refl)
    as (_ & Hsaved & _ & _ & Hplot & _).
  split; [exact Hsaved|].
  apply (Hplot (repeat tt 20) 6%Z); [reflexivity | discriminate].
Defined.

(** C10.  In the detailed renderer the fake signal is drawn against the time
    axis of the real one, and both against a fixed two-second axis.  When
    the two signals, as decoded and resampled, differ in length, or one of
    them has fewer samples than two seconds at the target rate, a plotting
    call raises; the handler catches and logs the error, the function
    returns normally, and no PDF is saved. *)
Theorem misaligned_detailed_not_saved {sample : Type} (w : World sample)
    (a : WaveformAnalyzer) (r f : Path) (rs fs' : list Path)
    (real_audio fake_audio : list sample) (target_sr : Z) (tp : list event) :
  real_files a = r :: rs -> fake_files a = f :: fs' ->
  w_mkdir w = None -> w_subplots w 3 1 = None ->
  prepare_signals w r f = (tp, Ok (real_audio, fake_audio, target_sr)) ->
  List.length real_audio <> List.length fake_audio
  \/ (Z.of_nat (List.length real_audio) < 2 * target_sr)%Z
  \/ (Z.of_nat (List.length fake_audio) < 2 * target_sr)%Z ->
  let t := trace (create_detailed_waveform_analysis w a) in
  (exists tplots,
      render_detailed w real_audio fake_audio target_sr
      = (tplots, Raise (Exception "ValueError"))) /\
  outcome (create_detailed_waveform_analysis w a) = Ok tt /\
  last t Close = Print (MsgErrDetailed (Exception "ValueError")) /\
  (forall pdf, ~ saved pdf t).
Proof.
  intros Hr Hf Hmk Hsub Hprep Hbad t.
  destruct (render_detailed_misaligned w real_audio fake_audio target_sr Hbad)
    as (tplots & Hrender & Hplots).
  assert (tp = []) as ->.
  { pose proof (prepare_signals_silent w r f) as Hs. now rewrite Hprep in Hs. }
  assert (create_detailed_waveform_analysis w a
          = ([Mkdir output_dir; Subplots 3 1] ++ tplots
               ++ [Print (MsgErrDetailed (Exception "ValueError"))], Ok tt)) as E.
  { rewrite (create_detailed_spec w a r f rs fs' Hr Hf Hmk Hsub).
    rewrite detailed_body_spec, Hprep, Hrender. reflexivity. }
  unfold t. rewrite E. unfold trace, outcome. cbn [fst snd].
  split; [eauto|]. split; [reflexivity|]. split.
  - rewrite !app_assoc. apply last_last.
  - intros pdf Hin. unfold saved in Hin.
    apply in_app_or in Hin as [Hin|Hin].
    + simpl in Hin. destruct Hin as [Hin|[Hin|[]]]; discriminate Hin.
    + apply in_app_or in Hin as [Hin|Hin].
      * rewrite Forall_forall in Hplots.
        destruct (Hplots _ Hin) as (ax & n & Heq). discriminate Heq.
      * destruct Hin as [Hin|[]]. discriminate Hin.
Qed.

Lemma misaligned_detailed_not_saved_witness :
  create_detailed_waveform_analysis (studio 10 12 3 3 None) paired
  = ([Mkdir output_dir; Subplots 3 1; Plot (Ax 0 0) 10;
      Print (MsgErrDetailed (Exception "ValueError"))], Ok tt)
  /\ forall pdf,
      ~ saved pdf (trace (create_detailed_waveform_analysis
                            (studio 10 12 3 3 None) paired)).
Proof.
  split; [vm_compute; reflexivity|].
  assert (prepare_signals (studio 10 12 3 3 None)
                          ["real_sample.wav"] ["fake_sample.wav"]
          = ([], Ok (repeat tt 10, repeat tt 12, 3%Z))) as Hprep
      by (vm_compute; reflexivity).
  assert (List.length (repeat tt 10) <> List.length (repeat tt 12)
          \/ (Z.of_nat (List.length (repeat tt 10)) < 2 * 3)%Z
          \/ (Z.of_nat (List.length (repeat tt 12)) < 2 * 3)%Z) as Hbad
      by (left; discriminate).
  destruct (misaligned_detailed_not_saved (studio 10 12 3 3 None) paired
              ["real_sample.wav"] ["fake_sample.wav"] [] []
              (repeat tt 10) (repeat tt 12) 3 []
              eq_refl eq_refl eq_refl eq_refl Hprep Hbad)
    as (_ & _ & _ & Hnone).
  exact Hnone.
Defined.

(** * Further properties of the scan *)

Section ScanMore.

Variable fl : flavour.

Lemma categorize_data_path (a : WaveformAnalyzer) (p : Path) :
  data_path (categorize fl a p) = data_path a.
Proof. destruct (categorize_cases fl a p) as [-> | ->]; reflexivity. Qed.

(** The messages and the flag of [find_audio_files], for any analyzer. *)
Lemma find_audio_files_spec (fs : list node) (a : WaveformAnalyzer) :
  let a' := scan_loop fl fs a in
  let found := match real_files a', fake_files a' with
               | [], [] => false
               | _, _ => true
               end in
  find_audio_files fl fs a
  = ([Print MsgSearching;
      Print (MsgFoundReal (List.length (real_files a')));
      Print (MsgFoundFake (List.length (fake_files a')))]
       ++ (if found then [] else [Print MsgNoAudio]),
     Ok (a', found)).
Proof.
  cbv zeta. unfold find_audio_files.
  destruct (real_files (scan_loop fl fs a)), (fake_files (scan_loop fl fs a));
    reflexivity.
Qed.

Lemma evens_cons {A} (x : A) (l : list A) : evens (x :: l) = x :: odds l.
Proof. now destruct l. Qed.

Lemma evens_odds_length {A} (l : list A) :
  List.length (odds l) <= List.length (evens l) <= S (List.length (odds l)).
Proof.
  induction l as [|x l IH]; [simpl; lia|].
  rewrite evens_cons. cbn [odds List.length]. lia.
Qed.

(** Unmatched paths are dealt in turn, starting with the list that is not
    the longer one. *)
Lemma fold_unmatched (ps : list Path) :
  forall a,
    (forall p, In p ps ->
               real_match fl (data_path a) p = false
               /\ fake_match fl (data_path a) p = false) ->
    let a' := fold_left (categorize fl) ps a in
    (List.length (real_files a) = List.length (fake_files a) ->
     real_files a' = real_files a ++ evens ps
     /\ fake_files a' = fake_files a ++ odds ps) /\
    (List.length (real_files a) = S (List.length (fake_files a)) ->
     real_files a' = real_files a ++ odds ps
     /\ fake_files a' = fake_files a ++ evens ps).
Proof.
  induction ps as [|p ps IH]; intros a Hun; cbv zeta.
  - simpl. rewrite !app_nil_r. auto.
  - destruct (Hun p (or_introl eq_refl)) as [Hr Hf].
    cbn [fold_left]. rewrite (categorize_unknown fl a p Hr Hf).
    rewrite evens_cons. cbn [odds].
    split; intros Hlen.
    + rewrite Hlen, Nat.leb_refl.
      destruct (IH (append_real a p)) as [_ IH2];
        [intros q Hq; apply Hun; now right|].
      destruct IH2 as [E1 E2].
      { simpl. rewrite length_app. simpl. lia. }
      rewrite E1, E2. simpl. now rewrite <- app_assoc.
    + assert ((List.length (real_files a) <=? List.length (fake_files a))%nat
              = false) as -> by (apply Nat.leb_gt; lia).
      destruct (IH (append_fake a p)) as [IH1 _];
        [intros q Hq; apply Hun; now right|].
      destruct IH1 as [E1 E2].
      { simpl. rewrite length_app. simpl. lia. }
      rewrite E1, E2. simpl. now rewrite <- app_assoc.
Qed.

(** When every processed path has a keyword, the two lists are filters of
    the processed paths. *)
Lemma fold_keyworded (ps : list Path) :
  forall a,
    (forall p, In p ps ->
               real_match fl (data_path a) p = true
               \/ fake_match fl (data_path a) p = true) ->
    let a' := fold_left (categorize fl) ps a in
    real_files a' = real_files a ++ filter (real_match fl (data_path a)) ps
    /\ fake_files a'
       = fake_files a
           ++ filter (fun p => negb (real_match fl (data_path a) p)) ps.
Proof.
  induction ps as [|p ps IH]; intros a Hkw; cbv zeta.
  - simpl. now rewrite !app_nil_r.
  - cbn [fold_left filter].
    assert (forall q, In q ps ->
              real_match fl (data_path (categorize fl a p)) q = true
              \/ fake_match fl (data_path (categorize fl a p)) q = true) as Hrest
        by (intros q Hq; rewrite categorize_data_path; apply Hkw; now right).
    destruct (IH _ Hrest) as [E1 E2]. rewrite E1, E2, categorize_data_path.
    destruct (real_match fl (data_path a) p) eqn:Hr.
    + rewrite (categorize_real fl a p Hr). simpl. now rewrite <- app_assoc.
    + destruct (Hkw p (or_introl eq_refl)) as [H|Hf]; [congruence|].
      rewrite (categorize_fake fl a p Hr Hf). simpl. now rewrite <- app_assoc.
Qed.

(** What each list can hold, as an invariant of the loop. *)
Lemma fold_contents (ps : list Path) (root : string) :
  forall a,
    data_path a = root ->
    Forall (fun p => real_match fl root p = true
                     \/ fake_match fl root p = false) (real_files a) ->
    Forall (fun p => real_match fl root p = false) (fake_files a) ->
    let a' := fold_left (categorize fl) ps a in
    Forall (fun p => real_match fl root p = true
                     \/ fake_match fl root p = false) (real_files a')
    /\ Forall (fun p => real_match fl root p = false) (fake_files a').
Proof.
  induction ps as [|p ps IH]; intros a Hd Hreal Hfake; cbv zeta; [now split|].
  cbn [fold_left]. apply IH.
  - now rewrite categorize_data_path.
  - unfold categorize. fold (real_match fl (data_path a) p).
    fold (fake_match fl (data_path a) p). rewrite Hd.
    destruct (real_match fl root p) eqn:Hr; simpl.
    + apply Forall_app. split; [exact Hreal | constructor; [now left | constructor]].
    + destruct (fake_match fl root p) eqn:Hf; simpl; [exact Hreal|].
      destruct (_ <=? _)%nat; simpl; [|exact Hreal].
      apply Forall_app. split; [exact Hreal | constructor; [now right | constructor]].
  - unfold categorize. fold (real_match fl (data_path a) p).
    fold (fake_match fl (data_path a) p). rewrite Hd.
    destruct (real_match fl root p) eqn:Hr; simpl; [exact Hfake|].
    destruct (fake_match fl root p) eqn:Hf; simpl.
    + apply Forall_app. split; [exact Hfake | constructor; [exact Hr | constructor]].
    + destruct (_ <=? _)%nat; simpl; [exact Hfake|].
      apply Forall_app. split; [exact Hfake | constructor; [exact Hr | constructor]].
Qed.

End ScanMore.

Section KeywordFacts.

Lemma prefix_app (kw a b : string) :
  prefix kw a = true -> prefix kw (a ++ b)%string = true.
Proof.
  revert a; induction kw as [|k kw IH]; intros a H; [apply prefix_empty|].
  destruct a as [|x a]; [discriminate|]. simpl in H |- *.
  destruct (ascii_dec k x); [auto | discriminate].
Qed.

Lemma contains_app_l (kw a b : string) :
  contains kw a = true -> contains kw (a ++ b)%string = true.
Proof.
  induction a as [|x a IH]; intros H.
  - simpl in H. rewrite orb_false_r in H.
    destruct kw; [|discriminate]. destruct (_ ++ _)%string; reflexivity.
  - change ((String x a ++ b)%string) with (String x (a ++ b)%string).
    cbn [contains] in H |- *. apply orb_prop in H as [H|H].
    + apply orb_true_intro. left. now apply (prefix_app kw (String x a) b).
    + rewrite (IH H). apply orb_true_r.
Qed.

Lemma contains_app_r (kw a b : string) :
  contains kw b = true -> contains kw (a ++ b)%string = true.
Proof.
  intros H. induction a as [|x a IH]; [exact H|].
  change ((String x a ++ b)%string) with (String x (a ++ b)%string).
  cbn [contains]. rewrite IH. apply orb_true_r.
Qed.

(** A keyword of the root, or of anything already joined, stays in the
    path string however many components follow. *)
Lemma path_str_prefix (fl : flavour) (kw : string) (p : Path) :
  forall acc,
    contains kw (lower acc) = true ->
    contains kw (lower (fold_left (fun acc c => (acc ++ String (sep fl) c)%string)
                                  p acc)) = true.
Proof.
  induction p as [|c p IH]; intros acc H; [exact H|].
  cbn [fold_left]. apply IH. rewrite lower_app. now apply contains_app_l.
Qed.

(** A keyword of any component is in the path string. *)
Lemma path_str_component (fl : flavour) (kw c : string) (p : Path) :
  forall acc,
    In c p -> contains kw (lower c) = true ->
    contains kw (lower (fold_left (fun acc c => (acc ++ String (sep fl) c)%string)
                                  p acc)) = true.
Proof.
  induction p as [|d p IH]; intros acc Hin H; [destruct Hin|].
  cbn [fold_left]. destruct Hin as [->|Hin]; [|now apply IH].
  apply path_str_prefix. rewrite lower_app. apply contains_app_r.
  cbn [lower contains]. rewrite H. apply orb_true_r.
Qed.

Lemma filter_all {A} (f : A -> bool) (l : list A) :
  (forall x, In x l -> f x = true) -> filter f l = l.
Proof.
  induction l as [|x l IH]; intros H; [reflexivity|].
  simpl. rewrite (H x (or_introl eq_refl)). f_equal. apply IH.
  intros y Hy. apply H. now right.
Qed.

Lemma filter_none {A} (f : A -> bool) (l : list A) :
  (forall x, In x l -> f x = false) -> filter f l = [].
Proof.
  induction l as [|x l IH]; intros H; [reflexivity|].
  simpl. rewrite (H x (or_introl eq_refl)). apply IH.
  intros y Hy. apply H. now right.
Qed.

Lemma fnmatch_star_unfold (pat s : string) :
  fnmatch (String "*" pat) s
  = fnmatch pat s
    || match s with
       | EmptyString => false
       | String _ s' => fnmatch (String "*" pat) s'
       end.
Proof. destruct s; cbn [fnmatch]; rewrite Ascii.eqb_refl; reflexivity. Qed.

Lemma fnmatch_literal_refl (lit : string) :
  occurs "*" lit = false -> fnmatch lit lit = true.
Proof.
  induction lit as [|c lit IH]; intros H; [reflexivity|].
  cbn [occurs] in H. apply orb_false_elim in H as [Hc H].
  cbn [fnmatch]. rewrite Ascii.eqb_sym in Hc. rewrite Hc, Ascii.eqb_refl.
  now apply IH.
Qed.

Lemma fnmatch_star_app (lit pre : string) :
  occurs "*" lit = false -> fnmatch (String "*" lit) (pre ++ lit)%string = true.
Proof.
  intros H. induction pre as [|c pre IH].
  - rewrite fnmatch_star_unfold. simpl. now rewrite fnmatch_literal_refl.
  - change ((String c pre ++ lit)%string) with (String c (pre ++ lit)%string).
    rewrite fnmatch_star_unfold, IH. apply orb_true_r.
Qed.

(** A pattern of the scan matches exactly the names that end, as the
    flavour folds them, in the pattern's extension. *)
Lemma matches_suffix (fl : flavour) (nm : string) :
  (exists ext, In ext audio_extensions /\ matches fl ext nm = true) <->
  (exists suf pre, In suf audio_suffixes /\ folded fl nm = (pre ++ suf)%string).
Proof.
  assert (forall lit, lower lit = lit ->
            matches fl (String "*" lit) nm = fnmatch (String "*" lit) (folded fl nm))
    as Hm.
  { intros lit Hl. destruct fl; [reflexivity|].
    unfold matches, folded. cbn [lower]. now rewrite Hl. }
  split.
  - intros (ext & Hext & H). simpl in Hext.
    destruct Hext as [<-|[<-|[<-|[<-|[]]]]];
      rewrite Hm in H by reflexivity;
      apply fnmatch_star_suffix in H as [pre Hpre]; try reflexivity;
      eexists; exists pre; (split; [|exact Hpre]); simpl; auto.
  - intros (suf & pre & Hsuf & H). simpl in Hsuf.
    destruct Hsuf as [<-|[<-|[<-|[<-|[]]]]];
      [exists "*.wav"%string | exists "*.mp3"%string
       | exists "*.flac"%string | exists "*.m4a"%string];
      (split; [simpl; auto|]);
      rewrite Hm by reflexivity; rewrite H; now apply fnmatch_star_app.
Qed.

End KeywordFacts.

(** The scan of a fresh analyzer: messages, flag and counts. *)
Lemma find_audio_files_fresh (fl : flavour) (fs : list node) (root : string) :
  let a := scanned fl fs root in
  let found := match scan_order fl fs with [] => false | _ => true end in
  find_audio_files fl fs (init root)
  = ([Print MsgSearching;
      Print (MsgFoundReal (List.length (real_files a)));
      Print (MsgFoundFake (List.length (fake_files a)))]
       ++ (if found then [] else [Print MsgNoAudio]),
     Ok (a, found))
  /\ List.length (real_files a) + List.length (fake_files a)
     = List.length (scan_order fl fs).
Proof.
  cbv zeta.
  destruct (scanned_interleave fl fs root) as [_ Hi].
  pose proof (Permutation_length (interleave_perm _ _ _ Hi)) as Hlen.
  rewrite length_app in Hlen. split; [|exact Hlen].
  pose proof (find_audio_files_spec fl fs (init root)) as Hspec.
  cbv zeta in Hspec.
  assert (scan_loop fl fs (init root) = scanned fl fs root) as E
      by (rewrite scanned_eq; apply scan_loop_fold).
  rewrite E in Hspec. rewrite Hspec.
  destruct (scan_order fl fs) as [|p ps];
    destruct (real_files (scanned fl fs root)) as [|r rs];
    destruct (fake_files (scanned fl fs root)) as [|f fs'];
    simpl in Hlen; try discriminate Hlen; reflexivity.
Qed.

(** X1.  On a fresh analyzer [find_audio_files] prints the two counts, which
    add up to the number of paths the scan processed, and returns [True]
    exactly when it processed at least one path; the "no audio files"
    message is printed exactly when it returns [False]. *)
Theorem scan_flag_and_counts (fl : flavour) (fs : list node) (root : string) :
  let a := scanned fl fs root in
  let found := match scan_order fl fs with [] => false | _ => true end in
  find_audio_files fl fs (init root)
  = ([Print MsgSearching;
      Print (MsgFoundReal (List.length (real_files a)));
      Print (MsgFoundFake (List.length (fake_files a)))]
       ++ (if found then [] else [Print MsgNoAudio]),
     Ok (a, found))
  /\ List.length (real_files a) + List.length (fake_files a)
     = List.length (scan_order fl fs).
Proof. exact (find_audio_files_fresh fl fs root). Qed.

(** X2.  A scan only appends: on an analyzer that already holds paths, the
    old contents of both lists stay in front, the processed paths are dealt
    behind them, the dataset path is unchanged, and the flag is [True] even
    if the scan itself found nothing. *)
Theorem rescan_appends (fl : flavour) (fs : list node) (a : WaveformAnalyzer) :
  exists t a' found r f,
    find_audio_files fl fs a = (t, Ok (a', found))
    /\ data_path a' = data_path a
    /\ real_files a' = real_files a ++ r
    /\ fake_files a' = fake_files a ++ f
    /\ interleave r f (scan_order fl fs)
    /\ (real_files a <> [] \/ fake_files a <> [] -> found = true).
Proof.
  pose proof (find_audio_files_spec fl fs a) as Hspec. cbv zeta in Hspec.
  destruct (fold_categorize fl (scan_order fl fs) a) as (r & f & Hd & Hr & Hf & Hi).
  cbv zeta in Hd, Hr, Hf. rewrite <- scan_loop_fold in Hd, Hr, Hf.
  eexists _, (scan_loop fl fs a), _, r, f.
  split; [exact Hspec|]. repeat split; trivial.
  rewrite Hr, Hf. intros [H|H].
  - destruct (real_files a); [contradiction | reflexivity].
  - destruct (fake_files a); [contradiction|].
    now destruct (real_files a ++ r).
Qed.

(** X3.  When no processed path has a keyword, the fallback deals the paths
    in turn: [real_files] gets the first, third, fifth, ... processed path
    and [fake_files] the second, fourth, ...; the two lists differ in length
    by at most one, [real_files] never being the shorter. *)
Theorem unmatched_alternate (fl : flavour) (fs : list node) (root : string) :
  (forall p, In p (scan_order fl fs) ->
             real_match fl root p = false /\ fake_match fl root p = false) ->
  real_files (scanned fl fs root) = evens (scan_order fl fs)
  /\ fake_files (scanned fl fs root) = odds (scan_order fl fs)
  /\ List.length (fake_files (scanned fl fs root))
     <= List.length (real_files (scanned fl fs root))
     <= S (List.length (fake_files (scanned fl fs root))).
Proof.
  intros Hun. rewrite scanned_eq.
  destruct (fold_unmatched fl (scan_order fl fs) (init root) Hun) as [H _].
  destruct (H eq_refl) as [-> ->]. simpl.
  repeat split; apply evens_odds_length.
Qed.

Lemma unmatched_alternate_witness :
  real_files (scanned Windows neutral_fs DATASET_PATH)
  = [["a.wav"]; ["c.wav"]; ["e.flac"]]
  /\ fake_files (scanned Windows neutral_fs DATASET_PATH)
     = [["b.wav"]; ["d.mp3"]].
Proof.
  assert (forall p, In p (scan_order Windows neutral_fs) ->
            real_match Windows DATASET_PATH p = false
            /\ fake_match Windows DATASET_PATH p = false) as Hun.
  { intros p Hp. vm_compute in Hp.
    destruct Hp as [<-|[<-|[<-|[<-|[<-|[]]]]]]; split; vm_compute; reflexivity. }
  destruct (unmatched_alternate Windows neutral_fs DATASET_PATH Hun)
    as (Hr & Hf & _).
  split; [rewrite Hr | rewrite Hf]; vm_compute; reflexivity.
Defined.

(** X4.  Folder names decide as file names do: a path with a real keyword
    in any of its components (any case) is appended to [real_files], and a
    path with a fake keyword in some component and no real keyword anywhere
    in its name or full path is appended to [fake_files]. *)
Theorem folder_keyword (fl : flavour) (a : WaveformAnalyzer) (p : Path)
    (kw c : string) :
  In c p -> contains kw (lower c) = true ->
  (In kw real_keywords -> categorize fl a p = append_real a p)
  /\ (In kw fake_keywords -> real_match fl (data_path a) p = false ->
      categorize fl a p = append_fake a p).
Proof.
  intros Hc Hkw.
  pose proof (path_str_component fl kw c p (data_path a) Hc Hkw) as Hpath.
  split.
  - intros Hin. apply categorize_real. apply any_keyword_true.
    exists kw. split; [exact Hin | now right].
  - intros Hin Hr. apply categorize_fake; [exact Hr|]. apply any_keyword_true.
    exists kw. split; [exact Hin | now right].
Qed.

Lemma folder_keyword_witness :
  categorize Posix (init "/data") ["Genuine"; "001.wav"]
  = append_real (init "/data") ["Genuine"; "001.wav"]
  /\ categorize Posix (init "/data") ["Synthetic"; "001.wav"]
     = append_fake (init "/data") ["Synthetic"; "001.wav"].
Proof.
  split.
  - assert (In "Genuine"%string ["Genuine"; "001.wav"]%string) as Hc by now left.
    assert (contains "genuine" (lower "Genuine") = true) as Hk
        by (vm_compute; reflexivity).
    destruct (folder_keyword Posix (init "/data") ["Genuine"; "001.wav"]
                "genuine" "Genuine" Hc Hk) as [H _].
    apply H. right. now left.
  - assert (In "Synthetic"%string ["Synthetic"; "001.wav"]%string) as Hc
        by now left.
    assert (contains "synthetic" (lower "Synthetic") = true) as Hk
        by (vm_compute; reflexivity).
    destruct (folder_keyword Posix (init "/data") ["Synthetic"; "001.wav"]
                "synthetic" "Synthetic" Hc Hk) as [_ H].
    apply H; [right; now left | vm_compute; reflexivity].
Defined.

(** X5.  When the dataset path itself holds a real keyword, every processed
    path is classified real: after the scan [real_files] is the whole scan
    order and [fake_files] is empty, whatever the files are called. *)
Theorem root_keyword_all_real (fl : flavour) (fs : list node) (root kw : string) :
  In kw real_keywords -> contains kw (lower root) = true ->
  real_files (scanned fl fs root) = scan_order fl fs
  /\ fake_files (scanned fl fs root) = [].
Proof.
  intros Hin Hroot.
  assert (forall p, real_match fl root p = true) as Hall.
  { intros p. apply any_keyword_true. exists kw. split; [exact Hin|].
    right. now apply path_str_prefix. }
  rewrite scanned_eq.
  destruct (fold_keyworded fl (scan_order fl fs) (init root)) as [Hr Hf].
  { intros p _. left. apply Hall. }
  cbv zeta in Hr, Hf. rewrite Hr, Hf. simpl. split.
  - apply filter_all. intros p _. apply Hall.
  - apply filter_none. intros p _. now rewrite Hall.
Qed.

Lemma root_keyword_all_real_witness :
  fake_files (scanned Posix samples_fs "/home/user/original/dataset") = [].
Proof.
  assert (In "original"%string real_keywords) as Hin by (right; right; now left).
  assert (contains "original" (lower "/home/user/original/dataset") = true)
    as Hroot by (vm_compute; reflexivity).
  destruct (root_keyword_all_real Posix samples_fs "/home/user/original/dataset"
              "original" Hin Hroot) as [_ H].
  exact H.
Defined.

(** X6.  After the scan of a fresh analyzer no path of [fake_files] has a
    real keyword, and every path of [real_files] has a real keyword or no
    fake keyword. *)
Theorem list_contents (fl : flavour) (fs : list node) (root : string) :
  Forall (fun p => real_match fl root p = true \/ fake_match fl root p = false)
         (real_files (scanned fl fs root))
  /\ Forall (fun p => real_match fl root p = false)
            (fake_files (scanned fl fs root)).
Proof.
  rewrite scanned_eq.
  apply (fold_contents fl (scan_order fl fs) root (init root));
    [reflexivity | constructor | constructor].
Qed.

(** X7.  When every processed path has a keyword, the classification does
    not depend on the order of the scan: [real_files] holds the processed
    paths with a real keyword and [fake_files] the others, each in scan
    order. *)
Theorem keyworded_filters (fl : flavour) (fs : list node) (root : string) :
  (forall p, In p (scan_order fl fs) ->
             real_match fl root p = true \/ fake_match fl root p = true) ->
  real_files (scanned fl fs root)
  = filter (real_match fl root) (scan_order fl fs)
  /\ fake_files (scanned fl fs root)
     = filter (fun p => negb (real_match fl root p)) (scan_order fl fs).
Proof.
  intros Hkw. rewrite scanned_eq.
  exact (fold_keyworded fl (scan_order fl fs) (init root) Hkw).
Qed.

Lemma keyworded_filters_witness :
  real_files (scanned Windows folders_fs DATASET_PATH)
  = [["Genuine"; "001.wav"]; ["Genuine"; "002.wav"]]
  /\ fake_files (scanned Windows folders_fs DATASET_PATH)
     = [["Synthetic"; "001.wav"]; ["Synthetic"; "002.mp3"]].
Proof.
  assert (forall p, In p (scan_order Windows folders_fs) ->
            real_match Windows DATASET_PATH p = true
            \/ fake_match Windows DATASET_PATH p = true) as Hkw.
  { intros p Hp. vm_compute in Hp.
    destruct Hp as [<-|[<-|[<-|[<-|[]]]]];
      [left | left | right | right]; vm_compute; reflexivity. }
  destruct (keyworded_filters Windows folders_fs DATASET_PATH Hkw) as [Hr Hf].
  split; [rewrite Hr | rewrite Hf]; vm_compute; reflexivity.
Defined.

(** X8.  The scan processes exactly the entries of the walk, directories
    included, whose name ends in [.wav], [.mp3], [.flac] or [.m4a]; the
    comparison is by case on the Posix flavour and ignores case on the
    Windows flavour. *)
Theorem discovered_iff_suffix (fl : flavour) (fs : list node) (p : Path) :
  In p (scan_order fl fs) <->
  In p (walk fs)
  /\ exists suf pre, In suf audio_suffixes
                     /\ folded fl (name p) = (pre ++ suf)%string.
Proof.
  rewrite scan_order_in. now rewrite matches_suffix.
Qed.

(** * Further properties of the rendering steps *)

Section RenderMore.

Context {sample : Type}.
Variable w : World sample.

(** The steps of [main] after a scan that found something. *)
Lemma main_spec (fl : flavour) (fs : list node) :
  scan_order fl fs <> [] ->
  let a := scanned fl fs DATASET_PATH in
  let rest := bind (create_waveform_comparison w a)
                   (fun _ => bind (create_detailed_waveform_analysis w a)
                                  (fun _ => print MsgAllDone)) in
  main w fl fs
  = ([Print MsgBanner; Print MsgSearching;
      Print (MsgFoundReal (List.length (real_files a)));
      Print (MsgFoundFake (List.length (fake_files a)))] ++ trace rest,
     outcome rest).
Proof.
  intros Hne. cbv zeta. unfold main. cbv zeta.
  destruct (find_audio_files_fresh fl fs DATASET_PATH) as [E _].
  cbv zeta in E. rewrite E.
  destruct (scan_order fl fs) as [|p ps]; [contradiction|].
  simpl. now destruct (bind _ _).
Qed.

(** The guarded blocks only draw or print an error. *)
Lemma plot_first5_events (ax : axis) (err : exn -> message) (example : Path)
    (ev : event) :
  In ev (trace (plot_first5 w ax err example)) ->
  (exists n, ev = Plot ax n) \/ (exists e, ev = Print (err e)).
Proof.
  rewrite plot_first5_spec.
  destruct (w_load w example) as [[audio sr]|e]; [cbv zeta;
    destruct (_ =? _)%nat|]; simpl; intros [<-|[]]; eauto.
Qed.

Lemma plot_combined_events (r f : Path) (ev : event) :
  In ev (trace (plot_combined w r f)) ->
  (exists n, ev = Plot (Ax 0 0) n) \/ (exists e, ev = Print (MsgErrCombined e)).
Proof.
  rewrite plot_combined_spec.
  destruct (w_load w r) as [[ar sr]|e]; [destruct (w_load w f) as [[af sf]|e]|];
    simpl; intros H; repeat (destruct H as [<-|H]; [eauto|]); destruct H.
Qed.

(** The comparison figure when an unguarded call fails: the exception
    leaves the function before anything is saved. *)
Lemma create_waveform_comparison_raises (a : WaveformAnalyzer) (e : exn) :
  w_mkdir w = Some e
  \/ (w_mkdir w = None /\ w_subplots w 2 2 = Some e)
  \/ (w_mkdir w = None /\ w_subplots w 2 2 = None
      /\ w_savefig w waveform_pdf = Some e) ->
  exists t,
    create_waveform_comparison w a = (t, Raise e)
    /\ forall ev, In ev t ->
         match ev with
         | Savefig _ | Close | Subplots 3 1 => False
         | Print m => exists e', m = MsgCreating \/ m = MsgErrCombined e'
                                 \/ m = MsgErrReal e' \/ m = MsgErrFake e'
         | _ => True
         end.
Proof.
  unfold create_waveform_comparison, mkdir, subplots, savefig, guarded.
  intros [Hmk|[[Hmk Hsub]|(Hmk & Hsub & Hsave)]].
  - rewrite Hmk. eexists. split; [reflexivity|].
    intros ev [<-|[]]. exists e. auto.
  - rewrite Hmk, Hsub. eexists. split; [reflexivity|].
    intros ev [<-|[<-|[]]]; [exists e; auto | exact I].
  - rewrite Hmk, Hsub, Hsave. cbv zeta.
    set (b1 := match hd_error (real_files a), hd_error (fake_files a) with
               | Some r, Some f => plot_combined w r f
               | _, _ => ret tt
               end).
    set (b2 := match hd_error (real_files a) with
               | Some r => plot_first5 w (Ax 0 1) MsgErrReal r
               | None => ret tt
               end).
    set (b3 := match hd_error (fake_files a) with
               | Some f => plot_first5 w (Ax 1 0) MsgErrFake f
               | None => ret tt
               end).
    assert (outcome b1 = Ok tt
            /\ forall ev, In ev (trace b1) ->
                 (exists ax n, ev = Plot ax n)
                 \/ (exists e', ev = Print (MsgErrCombined e'))) as [H1 T1].
    { unfold b1. destruct (hd_error (real_files a)) as [r|],
        (hd_error (fake_files a)) as [f|];
        try (split; [reflexivity | intros ev []]).
      split; [apply plot_combined_returns|].
      intros ev Hev. apply plot_combined_events in Hev as [[n ->]|[e' ->]]; eauto. }
    assert (outcome b2 = Ok tt
            /\ forall ev, In ev (trace b2) ->
                 (exists ax n, ev = Plot ax n)
                 \/ (exists e', ev = Print (MsgErrReal e'))) as [H2 T2].
    { unfold b2. destruct (hd_error (real_files a)) as [r|];
        [|split; [reflexivity | intros ev []]].
      split; [apply plot_first5_returns|].
      intros ev Hev. apply plot_first5_events in Hev as [[n ->]|[e' ->]]; eauto. }
    assert (outcome b3 = Ok tt
            /\ forall ev, In ev (trace b3) ->
                 (exists ax n, ev = Plot ax n)
                 \/ (exists e', ev = Print (MsgErrFake e'))) as [H3 T3].
    { unfold b3. destruct (hd_error (fake_files a)) as [f|];
        [|split; [reflexivity | intros ev []]].
      split; [apply plot_first5_returns|].
      intros ev Hev. apply plot_first5_events in Hev as [[n ->]|[e' ->]]; eauto. }
    clearbody b1 b2 b3.
    destruct b1 as [t1 r1], b2 as [t2 r2], b3 as [t3 r3].
    simpl in H1, H2, H3, T1, T2, T3. subst r1 r2 r3.
    eexists. split; [reflexivity|].
    intros ev Hev. simpl in Hev.
    destruct Hev as [<-|[<-|[<-|Hev]]]; [exists e; auto | exact I | exact I |].
    rewrite ?app_nil_r in Hev.
    apply in_app_or in Hev as [Hev|Hev];
      [apply T1 in Hev as [(ax & n & ->)|[e' ->]]; [exact I | exists e'; auto]|].
    apply in_app_or in Hev as [Hev|Hev];
      [apply T2 in Hev as [(ax & n & ->)|[e' ->]]; [exact I | exists e'; auto]|].
    apply in_app_or in Hev as [Hev|Hev];
      [apply T3 in Hev as [(ax & n & ->)|[e' ->]]; [exact I | exists e'; auto]|].
    destruct Hev as [<-|[]]. exact I.
Qed.

(** With its directory and figure created, the detailed step returns
    normally whatever happens inside it. *)
Lemma create_detailed_returns (a : WaveformAnalyzer) :
  w_mkdir w = None -> w_subplots w 3 1 = None ->
  outcome (create_detailed_waveform_analysis w a) = Ok tt.
Proof.
  intros Hmk Hsub.
  destruct (real_files a) as [|r rs] eqn:Hr;
    [rewrite create_detailed_skips by auto; reflexivity|].
  destruct (fake_files a) as [|f fs'] eqn:Hf;
    [rewrite create_detailed_skips by auto; reflexivity|].
  rewrite (create_detailed_spec w a r f rs fs' Hr Hf Hmk Hsub).
  now destruct (detailed_body w r f) as [t [[]|e]].
Qed.

End RenderMore.

Section RenderExtras.

Context {sample : Type}.
Variable w : World sample.

(** What a successful preparation step did. *)
Lemma prepare_signals_inv (r f : Path) (y_r y_f : list sample) (sr_r sr_f : Z)
    (t : list event) (real_audio fake_audio : list sample) (tg : Z) :
  w_load w r = Ok (y_r, sr_r) ->
  w_load w f = Ok (y_f, sr_f) ->
  prepare_signals w r f = (t, Ok (real_audio, fake_audio, tg)) ->
  tg = target_rate sr_r sr_f
  /\ (sr_r = tg -> real_audio = y_r)
  /\ (sr_r <> tg -> w_resample w y_r sr_r tg = Ok real_audio)
  /\ (sr_f = tg -> fake_audio = y_f)
  /\ (sr_f <> tg -> w_resample w y_f sr_f tg = Ok fake_audio).
Proof.
  intros Hr Hf H. unfold prepare_signals, load, call in H.
  rewrite Hr, bind_ret_l, Hf, bind_ret_l in H.
  apply bind_ok_inv in H as (t1 & ra' & t2 & Hreal & H & _).
  apply bind_ok_inv in H as (t3 & fa' & t4 & Hfake & H & _).
  injection H as _ <- <- <-.
  apply resample_to_ok in Hreal as [Rsame Rdiff].
  apply resample_to_ok in Hfake as [Fsame Fdiff].
  repeat split; auto.
Qed.

(** The detailed figure for misaligned signals: some plots, the logged
    error, nothing else. *)
Lemma create_detailed_misaligned (a : WaveformAnalyzer) (r f : Path)
    (rs fs' : list Path) (real_audio fake_audio : list sample) (target_sr : Z)
    (tp : list event) :
  real_files a = r :: rs -> fake_files a = f :: fs' ->
  w_mkdir w = None -> w_subplots w 3 1 = None ->
  prepare_signals w r f = (tp, Ok (real_audio, fake_audio, target_sr)) ->
  List.length real_audio <> List.length fake_audio
  \/ (Z.of_nat (List.length real_audio) < 2 * target_sr)%Z
  \/ (Z.of_nat (List.length fake_audio) < 2 * target_sr)%Z ->
  exists tplots,
    Forall (fun ev => exists ax n, ev = Plot ax n) tplots
    /\ create_detailed_waveform_analysis w a
       = ([Mkdir output_dir; Subplots 3 1] ++ tplots
            ++ [Print (MsgErrDetailed (Exception "ValueError"))], Ok tt).
Proof.
  intros Hr Hf Hmk Hsub Hprep Hbad.
  destruct (render_detailed_misaligned w real_audio fake_audio target_sr Hbad)
    as (tplots & Hrender & Hplots).
  assert (tp = []) as ->.
  { pose proof (prepare_signals_silent w r f) as Hs. now rewrite Hprep in Hs. }
  exists tplots. split; [exact Hplots|].
  rewrite (create_detailed_spec w a r f rs fs' Hr Hf Hmk Hsub).
  rewrite detailed_body_spec, Hprep, Hrender. reflexivity.
Qed.

End RenderExtras.

(** X9.  Both renderers use the first path of each list and nothing else of
    the lists: two analyzers of one dataset whose lists start alike produce
    the same events and the same result. *)
Theorem first_examples_only {sample : Type} (w : World sample)
    (a b : WaveformAnalyzer) :
  data_path a = data_path b ->
  hd_error (real_files a) = hd_error (real_files b) ->
  hd_error (fake_files a) = hd_error (fake_files b) ->
  create_waveform_comparison w a = create_waveform_comparison w b
  /\ create_detailed_waveform_analysis w a
     = create_detailed_waveform_analysis w b.
Proof.
  intros _ Hr Hf. split.
  - unfold create_waveform_comparison. cbv zeta. now rewrite Hr, Hf.
  - unfold create_detailed_waveform_analysis.
    destruct (real_files a) as [|ra rsa], (real_files b) as [|rb rsb];
      try discriminate Hr; [reflexivity|].
    destruct (fake_files a) as [|fa fsa], (fake_files b) as [|fb fsb];
      try discriminate Hf; [reflexivity|].
    simpl in Hr, Hf. now injection Hr as ->; injection Hf as ->.
Qed.

Lemma first_examples_only_witness :
  create_detailed_waveform_analysis (studio 10 10 3 3 None) paired
  = create_detailed_waveform_analysis (studio 10 10 3 3 None)
      (mkAnalyzer DATASET_PATH [["real_sample.wav"]; ["x.wav"]]
                  [["fake_sample.wav"]; ["y.wav"]; ["z.mp3"]]).
Proof.
  apply (first_examples_only (studio 10 10 3 3 None) paired
           (mkAnalyzer DATASET_PATH [["real_sample.wav"]; ["x.wav"]]
                       [["fake_sample.wav"]; ["y.wav"]; ["z.mp3"]]));
    reflexivity.
Defined.

(** X10.  The directory creation, the figure creation and the save of the
    comparison step are outside every handler: when the scan found files
    and one of the three raises, [main] ends with that exception, no PDF has
    been saved, the detailed step has not started and the closing success
    message is not printed. *)
Theorem main_aborts_on_setup_failure {sample : Type} (w : World sample)
    (fl : flavour) (fs : list node) (e : exn) :
  scan_order fl fs <> [] ->
  w_mkdir w = Some e
  \/ (w_mkdir w = None /\ w_subplots w 2 2 = Some e)
  \/ (w_mkdir w = None /\ w_subplots w 2 2 = None
      /\ w_savefig w waveform_pdf = Some e) ->
  outcome (main w fl fs) = Raise e
  /\ (forall pdf, ~ saved pdf (trace (main w fl fs)))
  /\ ~ In (Subplots 3 1) (trace (main w fl fs))
  /\ ~ In (Print MsgAllDone) (trace (main w fl fs)).
Proof.
  intros Hne Hfail.
  pose proof (main_spec w fl fs Hne) as Hmain. cbv zeta in Hmain.
  destruct (create_waveform_comparison_raises
              w (scanned fl fs DATASET_PATH) e Hfail) as (t & E & Hev).
  rewrite E in Hmain. cbn [bind trace outcome fst snd] in Hmain.
  rewrite Hmain. unfold trace, outcome, saved. cbn [fst snd].
  split; [reflexivity|].
  assert (forall ev, In ev ([Print MsgBanner; Print MsgSearching;
              Print (MsgFoundReal (List.length (real_files (scanned fl fs DATASET_PATH))));
              Print (MsgFoundFake (List.length (fake_files (scanned fl fs DATASET_PATH))))]
              ++ t) ->
            match ev with
            | Savefig _ | Subplots 3 1 | Print MsgAllDone => False
            | _ => True
            end) as Hall.
  { intros ev Hin. apply in_app_or in Hin as [Hin|Hin].
    - simpl in Hin. destruct Hin as [<-|[<-|[<-|[<-|[]]]]]; exact I.
    - specialize (Hev ev Hin). destruct ev as [m| |rows cols| | | | |]; trivial.
      destruct Hev as (e' & [->|[->|[->| ->]]]); exact I. }
  split; [|split].
  - intros pdf Hin. exact (Hall _ Hin).
  - intros Hin. exact (Hall _ Hin).
  - intros Hin. exact (Hall _ Hin).
Qed.

Lemma main_aborts_on_setup_failure_witness :
  outcome (main (studio 10 10 3 3 (Some (Exception "PermissionError")))
                Windows samples_fs)
  = Raise (Exception "PermissionError").
Proof.
  assert (scan_order Windows samples_fs <> []) as Hne
      by (vm_compute; discriminate).
  destruct (main_aborts_on_setup_failure
              (studio 10 10 3 3 (Some (Exception "PermissionError")))
              Windows samples_fs (Exception "PermissionError") Hne
              (or_introl eq_refl)) as [H _].
  exact H.
Defined.

(** X11.  When the scan found files and the directory, the two figures and
    the save of the comparison figure succeed, [main] returns normally, has
    saved [waveform_analysis.pdf] and ends by printing the success message,
    whichever decoding, plotting or detailed-save calls failed on the way. *)
Theorem main_reports_success {sample : Type} (w : World sample)
    (fl : flavour) (fs : list node) :
  scan_order fl fs <> [] ->
  w_mkdir w = None -> w_subplots w 2 2 = None -> w_subplots w 3 1 = None ->
  w_savefig w waveform_pdf = None ->
  outcome (main w fl fs) = Ok tt
  /\ saved waveform_pdf (trace (main w fl fs))
  /\ last (trace (main w fl fs)) Close = Print MsgAllDone.
Proof.
  intros Hne Hmk Hs22 Hs31 Hsave.
  pose proof (main_spec w fl fs Hne) as Hmain. cbv zeta in Hmain.
  set (a := scanned fl fs DATASET_PATH) in *.
  pose proof (create_waveform_comparison_spec w a Hmk Hs22 Hsave) as Hc.
  pose proof (create_detailed_returns w a Hmk Hs31) as Hd.
  destruct (create_detailed_waveform_analysis w a) as [td rd].
  simpl in Hd. subst rd.
  rewrite Hc in Hmain. cbn [bind print emit trace outcome fst snd] in Hmain.
  rewrite Hmain. unfold trace, outcome, saved. cbn [fst snd].
  split; [reflexivity|]. split.
  - apply in_or_app. right. apply in_or_app. left.
    apply in_or_app. right. apply in_or_app. right. apply in_or_app. right.
    apply in_or_app. right. right. left. reflexivity.
  - rewrite !app_assoc. apply last_last.
Qed.

Lemma main_reports_success_witness :
  last (trace (main (studio 10 12 3 3 None) Windows samples_fs)) Close
  = Print MsgAllDone
  /\ ~ saved detailed_pdf (trace (main (studio 10 12 3 3 None) Windows samples_fs)).
Proof.
  assert (scan_order Windows samples_fs <> []) as Hne
      by (vm_compute; discriminate).
  destruct (main_reports_success (studio 10 12 3 3 None) Windows samples_fs
              Hne eq_refl eq_refl eq_refl eq_refl) as (_ & _ & H).
  split; [exact H|].
  vm_compute. intros Hin.
  repeat (destruct Hin as [Hin|Hin]; [discriminate Hin|]). exact Hin.
Defined.

(** X12.  Once both examples are decoded and brought to one rate, and the
    histogram and save calls succeed, [detailed_waveform_analysis.pdf] is
    saved exactly when the two signals have the same number of samples and
    at least two seconds of them at the target rate. *)
Theorem detailed_saved_iff_aligned {sample : Type} (w : World sample)
    (a : WaveformAnalyzer) (r f : Path) (rs fs' : list Path)
    (real_audio fake_audio : list sample) (target_sr : Z) (tp : list event) :
  real_files a = r :: rs -> fake_files a = f :: fs' ->
  w_mkdir w = None -> w_subplots w 3 1 = None ->
  prepare_signals w r f = (tp, Ok (real_audio, fake_audio, target_sr)) ->
  (0 <= target_sr)%Z ->
  w_hist w real_audio = None -> w_hist w fake_audio = None ->
  w_savefig w detailed_pdf = None ->
  saved detailed_pdf (trace (create_detailed_waveform_analysis w a))
  <-> List.length real_audio = List.length fake_audio
      /\ (2 * target_sr <= Z.of_nat (List.length real_audio))%Z.
Proof.
  intros Hr Hf Hmk Hsub Hprep Hsr Hh1 Hh2 Hsave.
  destruct (Nat.eq_dec (List.length real_audio) (List.length fake_audio))
    as [Elen|Nlen];
    [destruct (Z_le_gt_dec (2 * target_sr) (Z.of_nat (List.length real_audio)))
      as [Hlong|Hshort]|].
  - split; [intros _; now split|]. intros _.
    rewrite (create_detailed_spec w a r f rs fs' Hr Hf Hmk Hsub).
    rewrite detailed_body_spec, Hprep.
    rewrite (render_detailed_aligned w real_audio fake_audio target_sr
               Elen Hsr Hlong Hh1 Hh2 Hsave).
    unfold saved, trace. cbn [fst snd].
    apply in_or_app. right. apply in_or_app. right.
    do 6 right. left. reflexivity.
  - split; [|intros [_ H]; lia]. intros Hin. exfalso.
    destruct (create_detailed_misaligned w a r f rs fs' real_audio fake_audio
                target_sr tp Hr Hf Hmk Hsub Hprep) as (tplots & Hplots & E);
      [right; left; lia|].
    rewrite E in Hin. unfold saved, trace in Hin. cbn [fst] in Hin.
    rewrite Forall_forall in Hplots.
    apply in_app_or in Hin as [[Hin|[Hin|[]]]|Hin]; try discriminate Hin.
    apply in_app_or in Hin as [Hin|[Hin|[]]]; [|discriminate Hin].
    destruct (Hplots _ Hin) as (ax & n & Heq). discriminate Heq.
  - split; [|intros [H _]; contradiction]. intros Hin. exfalso.
    destruct (create_detailed_misaligned w a r f rs fs' real_audio fake_audio
                target_sr tp Hr Hf Hmk Hsub Hprep) as (tplots & Hplots & E);
      [left; exact Nlen|].
    rewrite E in Hin. unfold saved, trace in Hin. cbn [fst] in Hin.
    rewrite Forall_forall in Hplots.
    apply in_app_or in Hin as [[Hin|[Hin|[]]]|Hin]; try discriminate Hin.
    apply in_app_or in Hin as [Hin|[Hin|[]]]; [|discriminate Hin].
    destruct (Hplots _ Hin) as (ax & n & Heq). discriminate Heq.
Qed.

Lemma detailed_saved_iff_aligned_witness :
  saved detailed_pdf
        (trace (create_detailed_waveform_analysis (studio 20 10 6 3 None) paired)).
Proof.
  assert (prepare_signals (studio 20 10 6 3 None)
                          ["real_sample.wav"] ["fake_sample.wav"]
          = ([], Ok (repeat tt 10, repeat tt 10, 3%Z))) as Hprep
      by (vm_compute; reflexivity).
  assert (0 <= 3)%Z as Hsr by discriminate.
  apply (detailed_saved_iff_aligned (studio 20 10 6 3 None) paired
           ["real_sample.wav"] ["fake_sample.wav"] [] []
           (repeat tt 10) (repeat tt 10) 3 []
           eq_refl eq_refl eq_refl eq_refl Hprep Hsr eq_refl eq_refl eq_refl).
  split; [reflexivity | discriminate].
Defined.

(** X13.  The detailed renderer only ever resamples downwards: the target
    rate is at most 22050 and at most each native rate, it is positive when
    both native rates are, and a prepared signal that is not the decoded one
    is the resampler's answer to a call whose target rate is strictly below
    the signal's native rate. *)
Theorem resample_only_downward {sample : Type} (w : World sample) (r f : Path)
    (y_r y_f : list sample) (sr_r sr_f : Z) (t : list event)
    (real_audio fake_audio : list sample) (tg : Z) :
  w_load w r = Ok (y_r, sr_r) ->
  w_load w f = Ok (y_f, sr_f) ->
  prepare_signals w r f = (t, Ok (real_audio, fake_audio, tg)) ->
  (tg <= 22050)%Z /\ (tg <= sr_r)%Z /\ (tg <= sr_f)%Z
  /\ ((0 < sr_r)%Z -> (0 < sr_f)%Z -> (0 < tg)%Z)
  /\ (real_audio = y_r
      \/ (tg < sr_r)%Z /\ w_resample w y_r sr_r tg = Ok real_audio)
  /\ (fake_audio = y_f
      \/ (tg < sr_f)%Z /\ w_resample w y_f sr_f tg = Ok fake_audio).
Proof.
  intros Hr Hf Hprep.
  destruct (prepare_signals_inv w r f y_r y_f sr_r sr_f t real_audio fake_audio
              tg Hr Hf Hprep) as (Htg & Rsame & Rdiff & Fsame & Fdiff).
  assert ((tg <= 22050)%Z /\ (tg <= sr_r)%Z /\ (tg <= sr_f)%Z
          /\ ((0 < sr_r)%Z -> (0 < sr_f)%Z -> (0 < tg)%Z)) as (B1 & B2 & B3 & B4)
      by (rewrite Htg; unfold target_rate; lia).
  repeat split; trivial.
  - destruct (Z.eq_dec sr_r tg) as [E|N]; [left; auto|].
    right. split; [lia | auto].
  - destruct (Z.eq_dec sr_f tg) as [E|N]; [left; auto|].
    right. split; [lia | auto].
Qed.

Lemma resample_only_downward_witness :
  (target_rate 44100 12000 < 44100)%Z
  /\ w_resample (studio 147 40 44100 12000 None) (repeat tt 147) 44100 12000
     = Ok (repeat tt 41).
Proof.
  assert (prepare_signals (studio 147 40 44100 12000 None)
                          ["real_sample.wav"] ["fake_sample.wav"]
          = ([], Ok (repeat tt 41, repeat tt 40, 12000%Z))) as Hprep
      by (vm_compute; reflexivity).
  destruct (resample_only_downward (studio 147 40 44100 12000 None)
              ["real_sample.wav"] ["fake_sample.wav"]
              (repeat tt 147) (repeat tt 40) 44100 12000 []
              (repeat tt 41) (repeat tt 40) 12000 eq_refl eq_refl Hprep)
    as (_ & _ & _ & _ & Hreal & _).
  destruct Hreal as [E|[Hlt Hres]]; [discriminate E|].
  split; [exact Hlt | exact Hres].
Defined.

(** X14.  Two examples of one native rate that is at most 22050 are never
    passed to the resampler: the preparation step returns the two decoded
    signals as they are, whatever the resampler would do. *)
Theorem equal_rates_not_resampled {sample : Type} (w : World sample)
    (r f : Path) (y_r y_f : list sample) (sr : Z) :
  w_load w r = Ok (y_r, sr) ->
  w_load w f = Ok (y_f, sr) ->
  (sr <= 22050)%Z ->
  prepare_signals w r f = ([], Ok (y_r, y_f, sr)).
Proof.
  intros Hr Hf Hsr. unfold prepare_signals, load, call.
  rewrite Hr, bind_ret_l, Hf, bind_ret_l.
  assert (target_rate sr sr = sr) as -> by (unfold target_rate; lia).
  unfold resample_to. rewrite Z.eqb_refl. reflexivity.
Qed.

Lemma equal_rates_not_resampled_witness :
  prepare_signals (studio 10 12 3 3 None) ["real_sample.wav"] ["fake_sample.wav"]
  = ([], Ok (repeat tt 10, repeat tt 12, 3%Z)).
Proof.
  apply (equal_rates_not_resampled (studio 10 12 3 3 None)
           ["real_sample.wav"] ["fake_sample.wav"]
           (repeat tt 10) (repeat tt 12) 3 eq_refl eq_refl).
  discriminate.
Defined.

(** X15.  With one example of each kind, both decoding at non-negative
    rates, the comparison figure shows both full signals on panel A (each
    on its own time axis, so their lengths need not agree), the first
    [min(len, 5 * sr)] samples of the real signal on panel B and of the
    fake signal on panel C, the summary naming both files, and is saved. *)
Theorem both_present_comparison {sample : Type} (w : World sample)
    (a : WaveformAnalyzer) (r f : Path) (rs fs' : list Path)
    (audio_real audio_fake : list sample) (sr_real sr_fake : Z) :
  real_files a = r :: rs -> fake_files a = f :: fs' ->
  w_mkdir w = None -> w_subplots w 2 2 = None -> w_savefig w waveform_pdf = None ->
  w_load w r = Ok (audio_real, sr_real) ->
  w_load w f = Ok (audio_fake, sr_fake) ->
  (0 <= sr_real)%Z -> (0 <= sr_fake)%Z ->
  create_waveform_comparison w a
  = ([Print MsgCreating; Mkdir output_dir; Subplots 2 2;
      Plot (Ax 0 0) (List.length audio_real);
      Plot (Ax 0 0) (List.length audio_fake);
      Plot (Ax 0 1)
           (Z.to_nat (Z.min (Z.of_nat (List.length audio_real)) (5 * sr_real)));
      Plot (Ax 1 0)
           (Z.to_nat (Z.min (Z.of_nat (List.length audio_fake)) (5 * sr_fake)));
      Text (Ax 1 1) (summary_text (Some r) (Some f));
      Savefig waveform_pdf; Close; Print (MsgWaveformSaved waveform_pdf)],
     Ok tt).
Proof.
  intros Hr Hf Hmk Hsub Hsave Lr Lf Pr Pf.
  rewrite (create_waveform_comparison_spec w a Hmk Hsub Hsave), Hr, Hf.
  cbn [hd_error]. rewrite plot_combined_spec, !plot_first5_spec, Lr, Lf.
  cbv zeta.
  rewrite (first5_lengths audio_real sr_real Pr),
    (first5_lengths audio_fake sr_fake Pf), !Nat.eqb_refl.
  reflexivity.
Qed.

Lemma both_present_comparison_witness :
  create_waveform_comparison (studio 20 10 6 3 None) paired
  = ([Print MsgCreating; Mkdir output_dir; Subplots 2 2;
      Plot (Ax 0 0) 20; Plot (Ax 0 0) 10; Plot (Ax 0 1) 20; Plot (Ax 1 0) 10;
      Text (Ax 1 1) (summary_text (Some ["real_sample.wav"])
                                  (Some ["fake_sample.wav"]));
      Savefig waveform_pdf; Close; Print (MsgWaveformSaved waveform_pdf)],
     Ok tt).
Proof.
  assert (0 <= 6)%Z as P6 by discriminate.
  assert (0 <= 3)%Z as P3 by discriminate.
  exact (both_present_comparison (studio 20 10 6 3 None) paired
           ["real_sample.wav"] ["fake_sample.wav"] [] []
           (repeat tt 20) (repeat tt 10) 6 3
           eq_refl eq_refl eq_refl eq_refl eq_refl eq_refl eq_refl P6 P3).
Defined.

(** X16.  With fake files only, the comparison figure is still saved: the
    combined panel and the real panel get no plot, the fake panel shows the
    first five seconds of the first fake file or, when it does not decode,
    stays blank with the error logged; the summary names the fake file
    only. *)
Theorem fake_only_comparison {sample : Type} (w : World sample)
    (a : WaveformAnalyzer) (f : Path) (fs' : list Path) :
  real_files a = [] -> fake_files a = f :: fs' ->
  w_mkdir w = None -> w_subplots w 2 2 = None -> w_savefig w waveform_pdf = None ->
  create_waveform_comparison w a
  = ([Print MsgCreating; Mkdir output_dir; Subplots 2 2]
       ++ match w_load w f with
          | Ok (audio, sr) =>
              let max_samples := Z.min (Z.of_nat (List.length audio)) (5 * sr) in
              if (arange_len max_samples
                  =? List.length (slice_to max_samples audio))%nat
              then [Plot (Ax 1 0) (List.length (slice_to max_samples audio))]
              else [Print (MsgErrFake (Exception "ValueError"))]
          | Raise e => [Print (MsgErrFake e)]
          end
       ++ [Text (Ax 1 1) (summary_text None (Some f));
           Savefig waveform_pdf; Close; Print (MsgWaveformSaved waveform_pdf)],
     Ok tt)
  /\ ~ populated (Ax 0 0) (trace (create_waveform_comparison w a))
  /\ ~ populated (Ax 0 1) (trace (create_waveform_comparison w a)).
Proof.
  intros Hr Hf Hmk Hsub Hsave.
  assert (create_waveform_comparison w a
          = ([Print MsgCreating; Mkdir output_dir; Subplots 2 2]
               ++ trace (plot_first5 w (Ax 1 0) MsgErrFake f)
               ++ [Text (Ax 1 1) (summary_text None (Some f));
                   Savefig waveform_pdf; Close;
                   Print (MsgWaveformSaved waveform_pdf)], Ok tt)) as E.
  { rewrite (create_waveform_comparison_spec w a Hmk Hsub Hsave), Hr, Hf.
    reflexivity. }
  rewrite E. unfold trace at 2 3. cbn [fst]. rewrite plot_first5_spec.
  split.
  - destruct (w_load w f) as [[audio sr]|e]; [cbv zeta;
      destruct (_ =? _)%nat|]; reflexivity.
  - split; intros [n Hin];
      (destruct (w_load w f) as [[audio sr]|e]; [cbv zeta in Hin;
         destruct (_ =? _)%nat|]); simpl in Hin;
      repeat (destruct Hin as [Hin|Hin]; [discriminate Hin|]); exact Hin.
Qed.

Lemma fake_only_comparison_witness :
  ~ populated (Ax 0 1)
      (trace (create_waveform_comparison
                (studio 20 10 6 3 None)
                (mkAnalyzer DATASET_PATH [] [["fake_sample.wav"]]))).
Proof.
  destruct (fake_only_comparison (studio 20 10 6 3 None)
              (mkAnalyzer DATASET_PATH [] [["fake_sample.wav"]])
              ["fake_sample.wav"] [] eq_refl eq_refl eq_refl eq_refl eq_refl)
    as (_ & _ & H).
  exact H.
Defined.

(** X17.  When an example of the detailed renderer does not decode, the
    renderer logs that exception and returns: nothing is drawn and nothing
    is saved.  The real example is decoded first, so when it fails the fake
    one plays no part. *)
Theorem detailed_decode_failure {sample : Type} (w : World sample)
    (a : WaveformAnalyzer) (r f : Path) (rs fs' : list Path) (e : exn) :
  real_files a = r :: rs -> fake_files a = f :: fs' ->
  w_mkdir w = None -> w_subplots w 3 1 = None ->
  w_load w r = Raise e
  \/ (exists decoded, w_load w r = Ok decoded) /\ w_load w f = Raise e ->
  create_detailed_waveform_analysis w a
  = ([Mkdir output_dir; Subplots 3 1; Print (MsgErrDetailed e)], Ok tt).
Proof.
  intros Hr Hf Hmk Hsub Hfail.
  rewrite (create_detailed_spec w a r f rs fs' Hr Hf Hmk Hsub).
  unfold detailed_body, prepare_signals, load, call.
  destruct Hfail as [-> | [[[y sr] ->] ->]]; reflexivity.
Qed.

Lemma detailed_decode_failure_witness :
  create_detailed_waveform_analysis
    (studio 10 10 3 3 None)
    (mkAnalyzer DATASET_PATH [["real_sample.wav"]] [["broken.wav"]])
  = ([Mkdir output_dir; Subplots 3 1;
      Print (MsgErrDetailed (Exception "NoBackendError"))], Ok tt).
Proof.
  apply (detailed_decode_failure (studio 10 10 3 3 None)
           (mkAnalyzer DATASET_PATH [["real_sample.wav"]] [["broken.wav"]])
           ["real_sample.wav"] ["broken.wav"] [] []
           (Exception "NoBackendError") eq_refl eq_refl eq_refl eq_refl).
  right. split; [eexists; reflexivity | reflexivity].
Defined.

(** X18.  In the comparison figure a fake example that does not decode
    costs the combined panel too: nothing is drawn on panel A, not even the
    real signal, the real panel is drawn as usual, the error is logged once
    for the combined panel and once for the fake panel, and the figure is
    saved. *)
Theorem comparison_fake_decode_failure {sample : Type} (w : World sample)
    (a : WaveformAnalyzer) (r f : Path) (rs fs' : list Path)
    (audio_real : list sample) (sr_real : Z) (e : exn) :
  real_files a = r :: rs -> fake_files a = f :: fs' ->
  w_mkdir w = None -> w_subplots w 2 2 = None -> w_savefig w waveform_pdf = None ->
  w_load w r = Ok (audio_real, sr_real) -> (0 <= sr_real)%Z ->
  w_load w f = Raise e ->
  create_waveform_comparison w a
  = ([Print MsgCreating; Mkdir output_dir; Subplots 2 2;
      Print (MsgErrCombined e);
      Plot (Ax 0 1)
           (Z.to_nat (Z.min (Z.of_nat (List.length audio_real)) (5 * sr_real)));
      Print (MsgErrFake e);
      Text (Ax 1 1) (summary_text (Some r) (Some f));
      Savefig waveform_pdf; Close; Print (MsgWaveformSaved waveform_pdf)],
     Ok tt).
Proof.
  intros Hr Hf Hmk Hsub Hsave Lr Pr Lf.
  rewrite (create_waveform_comparison_spec w a Hmk Hsub Hsave), Hr, Hf.
  cbn [hd_error]. rewrite plot_combined_spec, !plot_first5_spec, Lr, Lf.
  cbv zeta. rewrite (first5_lengths audio_real sr_real Pr), Nat.eqb_refl.
  reflexivity.
Qed.

Lemma comparison_fake_decode_failure_witness :
  create_waveform_comparison
    (studio 20 10 6 3 None)
    (mkAnalyzer DATASET_PATH [["real_sample.wav"]] [["broken.wav"]])
  = ([Print MsgCreating; Mkdir output_dir; Subplots 2 2;
      Print (MsgErrCombined (Exception "NoBackendError"));
      Plot (Ax 0 1) 20;
      Print (MsgErrFake (Exception "NoBackendError"));
      Text (Ax 1 1) (summary_text (Some ["real_sample.wav"])
                                  (Some ["broken.wav"]));
      Savefig waveform_pdf; Close; Print (MsgWaveformSaved waveform_pdf)],
     Ok tt).
Proof.
  assert (0 <= 6)%Z as P6 by discriminate.
  exact (comparison_fake_decode_failure
           (studio 20 10 6 3 None)
           (mkAnalyzer DATASET_PATH [["real_sample.wav"]] [["broken.wav"]])
           ["real_sample.wav"] ["broken.wav"] [] [] (repeat tt 20) 6
           (Exception "NoBackendError")
           eq_refl eq_refl eq_refl eq_refl eq_refl eq_refl P6 eq_refl).
Defined.
